(** * GithubCheck: the GitHub MCP server and its launcher

    A shallow embedding of the two programs of the repository:

    - the launcher [run-mcp.js], which reads four environment values,
      spawns the server and writes one JSON-RPC request to it;
    - the server (the TypeScript file registering the four tools
      [get_prs_of_repo], [get_pr], [analyze_and_comment_pr] and
      [post_comment_on_pr] over three REST client functions).

    The development has three layers: [JS], the fragment of the JavaScript
    runtime the two programs rely on (numbers, strings, JSON values and
    their serialisation, exceptions); [Launcher]; and [Server]. *)

From Stdlib Require Import ZArith String Ascii List Bool Lia DecimalString.
From stdpp Require Import base gmap strings.

(** * The JavaScript runtime fragment *)

Module JS.

Local Open Scope Z_scope.

(** ** Strings

    A JavaScript string is kept as the byte string of its UTF-8 encoding
    (well-formed text is assumed, so no lone surrogate occurs). *)

Definition byte_string (codes : list Z) : string :=
  string_of_list_ascii (map (fun c => ascii_of_N (Z.to_N c)) codes).

Definition code (c : ascii) : Z := Z.of_N (N_of_ascii c).

Definition LF : string := byte_string [10].

Fixpoint drop (n : nat) (s : string) : string :=
  match n, s with
  | S n', String _ s' => drop n' s'
  | _, _ => s
  end.

Definition is_empty (s : string) : bool :=
  match s with EmptyString => true | String _ _ => false end.

Definition zeros (n : nat) : string := string_of_list_ascii (repeat "0"%char n).

Definition spaces (n : nat) : string := string_of_list_ascii (repeat " "%char n).

Fixpoint all_chars (P : ascii -> bool) (s : string) : bool :=
  match s with
  | EmptyString => true
  | String c s' => P c && all_chars P s'
  end.

(** No line feed occurs in the string. *)
Definition one_line (s : string) : bool :=
  all_chars (fun c => negb (code c =? 10)) s.

(** [Array.prototype.join] on strings already converted. *)
Definition join (sep : string) (parts : list string) : string :=
  String.concat sep parts.

(** ** Numbers

    A finite number [Finite m e] stands for [m * 10^e], kept exactly. The
    range of binary64 is modelled (see [clamp]: overflow to an infinity,
    underflow to zero); the rounding of the significand to 53 bits is not,
    so the model is exact on decimal literals of at most 15 significant
    digits in the normal range, and on every integer below [2^53]. The two
    zeros of binary64 are not distinguished: both are falsy and both print
    as [0]. A value has several representations ([Finite 10 0] and
    [Finite 1 1]); they print alike. *)

Inductive number : Type :=
| NaN
| Infinity (negative : bool)
| Finite (m e : Z).

Definition Int (z : Z) : number := Finite z 0.

(** The least magnitude that rounds to an infinity, [2^1024 - 2^970], and
    the greatest that rounds to zero, [2^-1075]. *)
Definition overflow_bound : Z := 2 ^ 1024 - 2 ^ 970.
Definition underflow_shift : Z := 2 ^ 1075.

Definition overflows (a e : Z) : bool :=
  if 0 <=? e then
    if 400 <? e then true else overflow_bound <=? a * 10 ^ e
  else
    if Z.log2 a + 1 + e <=? 0 then false
    else overflow_bound * 10 ^ (- e) <=? a.

Definition underflows (a e : Z) : bool :=
  if 0 <=? e then false
  else
    if Z.log2 a + 401 <? - e then true
    else a * underflow_shift <=? 10 ^ (- e).

Definition clamp (m e : Z) : number :=
  if m =? 0 then Finite 0 0
  else if overflows (Z.abs m) e then Infinity (m <? 0)
  else if underflows (Z.abs m) e then Finite 0 0
  else Finite m e.

Definition decimal (n : Z) : string :=
  NilEmpty.string_of_uint (N.to_uint (Z.to_N n)).

Fixpoint drop_zeros (s : string) : string :=
  match s with
  | String "0"%char s' => drop_zeros s'
  | _ => s
  end.

Definition significand (digits : string) : string :=
  String.rev (drop_zeros (String.rev digits)).

(** [Number::toString] in radix 10. With [s] the digits of the significand
    without trailing zeros, [k] their count and [n] the position of the
    decimal point: plain notation for [-6 < n <= 21], exponent notation
    otherwise. *)
Definition Number_toString (x : number) : string :=
  match x with
  | NaN => "NaN"
  | Infinity false => "Infinity"
  | Infinity true => "-Infinity"
  | Finite m e =>
      if m =? 0 then "0"
      else
        let all := decimal (Z.abs m) in
        let s := significand all in
        let k := Z.of_nat (String.length s) in
        let n := Z.of_nat (String.length all) + e in
        (if m <? 0 then "-" else EmptyString) +:+
        (if (-6 <? n) && (n <=? 21) then
           if k <=? n then s +:+ zeros (Z.to_nat (n - k))
           else if 0 <? n then
             substring 0 (Z.to_nat n) s +:+ "." +:+ drop (Z.to_nat n) s
           else "0." +:+ zeros (Z.to_nat (- n)) +:+ s
         else
           let ex := n - 1 in
           let es := (if ex <? 0 then "-" else "+") +:+ decimal (Z.abs ex) in
           match s with
           | String c EmptyString => String c EmptyString +:+ "e" +:+ es
           | String c rest => String c EmptyString +:+ "." +:+ rest +:+ "e" +:+ es
           | EmptyString => "0"
           end)
  end.

(** [ToBoolean] on a number: zero and [NaN] are falsy. *)
Definition Number_truthy (x : number) : bool :=
  match x with
  | NaN => false
  | Infinity _ => true
  | Finite m _ => negb (m =? 0)
  end.

(** ** [Number(string)]: the StringNumericLiteral grammar

    Leading and trailing white space and line terminators are dropped; the
    empty string is [0]; then come [Infinity] with an optional sign, a
    decimal literal with an optional sign, or an unsigned binary, octal or
    hexadecimal integer literal. Anything else is [NaN]. *)

(** StrWhiteSpaceChar, as UTF-8 byte sequences: TAB, LF, VT, FF, CR, SP,
    U+00A0, U+1680, U+2000 to U+200A, U+2028, U+2029, U+202F, U+205F,
    U+3000 and U+FEFF. *)
Definition white_space : list string :=
  map byte_string
    ([[9]; [10]; [11]; [12]; [13]; [32]; [194; 160]; [225; 154; 128]]
     ++ map (fun c => [226; 128; c]) [128; 129; 130; 131; 132; 133; 134; 135; 136; 137; 138]
     ++ [[226; 128; 168]; [226; 128; 169]; [226; 128; 175]; [226; 129; 159];
         [227; 128; 128]; [239; 187; 191]]).

Fixpoint strip_prefix_of (candidates : list string) (s : string) : option string :=
  match candidates with
  | [] => None
  | w :: ws =>
      if String.prefix w s then Some (drop (String.length w) s)
      else strip_prefix_of ws s
  end.

Fixpoint trim_start_fuel (fuel : nat) (ws : list string) (s : string) : string :=
  match fuel with
  | O => s
  | S fuel' =>
      match strip_prefix_of ws s with
      | Some s' => trim_start_fuel fuel' ws s'
      | None => s
      end
  end.

Definition trim_start (s : string) : string :=
  trim_start_fuel (String.length s) white_space s.

Definition trim_end (s : string) : string :=
  String.rev
    (trim_start_fuel (String.length s) (map String.rev white_space) (String.rev s)).

Definition trim (s : string) : string := trim_end (trim_start s).

Definition decimal_digit (c : ascii) : option Z :=
  let n := code c in
  if (48 <=? n) && (n <=? 57) then Some (n - 48) else None.

Definition hex_digit (c : ascii) : option Z :=
  let n := code c in
  if (48 <=? n) && (n <=? 57) then Some (n - 48)
  else if (97 <=? n) && (n <=? 102) then Some (n - 87)
  else if (65 <=? n) && (n <=? 70) then Some (n - 55)
  else None.

Definition digit_below (base : Z) (c : ascii) : option Z :=
  match decimal_digit c with
  | Some d => if d <? base then Some d else None
  | None => None
  end.

(** Reads the longest run of digits: the value accumulated on [acc], the
    number of digits read, and the rest of the input. *)
Fixpoint read_digits (digit : ascii -> option Z) (base : Z) (s : string)
    (acc count : Z) : Z * Z * string :=
  match s with
  | String c s' =>
      match digit c with
      | Some d => read_digits digit base s' (acc * base + d) (count + 1)
      | None => (acc, count, s)
      end
  | EmptyString => (acc, count, s)
  end.

(** NonDecimalIntegerLiteral after its two-character prefix. *)
Definition integer_literal (digit : ascii -> option Z) (base : Z) (s : string) : number :=
  match read_digits digit base s 0 0 with
  | (v, count, EmptyString) => if 0 <? count then clamp v 0 else NaN
  | _ => NaN
  end.

(** ExponentPart, optional: the exponent, or [None] when the rest of the
    input is not an exponent part. *)
Definition exponent_part (s : string) : option Z :=
  match s with
  | EmptyString => Some 0
  | String c s' =>
      if (code c =? 101) || (code c =? 69) then
        let '(negative, s'') :=
          match s' with
          | String "+"%char r => (false, r)
          | String "-"%char r => (true, r)
          | _ => (false, s')
          end in
        match read_digits decimal_digit 10 s'' 0 0 with
        | (v, count, EmptyString) =>
            if 0 <? count then Some (if negative then - v else v) else None
        | _ => None
        end
      else None
  end.

(** StrUnsignedDecimalLiteral, with the sign already read. *)
Definition unsigned_decimal (negative : bool) (s : string) : number :=
  if String.eqb s "Infinity" then Infinity negative
  else
    let '(i, ci, r) := read_digits decimal_digit 10 s 0 0 in
    let '(m, cf, r') :=
      match r with
      | String "."%char r1 => read_digits decimal_digit 10 r1 i 0
      | _ => (i, 0, r)
      end in
    if 0 <? ci + cf then
      match exponent_part r' with
      | Some ex => clamp (if negative then - m else m) (ex - cf)
      | None => NaN
      end
    else NaN.

Definition StringToNumber (str : string) : number :=
  match trim str with
  | EmptyString => Finite 0 0
  | String "+"%char s => unsigned_decimal false s
  | String "-"%char s => unsigned_decimal true s
  | String "0"%char (String c s) as whole =>
      if (code c =? 120) || (code c =? 88) then integer_literal hex_digit 16 s
      else if (code c =? 111) || (code c =? 79) then integer_literal (digit_below 8) 8 s
      else if (code c =? 98) || (code c =? 66) then integer_literal (digit_below 2) 2 s
      else unsigned_decimal false whole
  | whole => unsigned_decimal false whole
  end.

(** Subtraction, exact. *)
Definition sub (x y : number) : number :=
  match x, y with
  | NaN, _ | _, NaN => NaN
  | Infinity a, Infinity b => if Bool.eqb a b then NaN else Infinity a
  | Infinity a, Finite _ _ => Infinity a
  | Finite _ _, Infinity b => Infinity (negb b)
  | Finite m1 e1, Finite m2 e2 =>
      let e := Z.min e1 e2 in
      clamp (m1 * 10 ^ (e1 - e) - m2 * 10 ^ (e2 - e)) e
  end.

(** [Math.floor(x / y)]: the quotient is floored exactly (its rounding to
    binary64 before [Math.floor] is not modelled). A zero divisor is taken
    as [+0]. *)
Definition Math_floor_quot (x y : number) : number :=
  match x, y with
  | NaN, _ | _, NaN => NaN
  | Infinity _, Infinity _ => NaN
  | Infinity a, Finite m _ => Infinity (xorb a (m <? 0))
  | Finite _ _, Infinity _ => Finite 0 0
  | Finite m1 e1, Finite m2 e2 =>
      if m2 =? 0 then (if m1 =? 0 then NaN else Infinity (m1 <? 0))
      else
        let d := e1 - e2 in
        clamp (if 0 <=? d then (m1 * 10 ^ d) / m2 else m1 / (m2 * 10 ^ (- d))) 0
  end.

(** ** Dates

    The time value of a Date object: a whole number of milliseconds of
    magnitude at most 8.64e15, or [None] for an invalid date ([NaN]). *)

Definition Date : Type := option Z.

Definition max_time : Z := 8640000000000000.

Definition TimeClip (t : number) : Date :=
  match t with
  | Finite m e =>
      let exceeds :=
        if 0 <=? e then max_time <? Z.abs m * 10 ^ e
        else max_time * 10 ^ (- e) <? Z.abs m in
      if exceeds then None
      else Some (if 0 <=? e then m * 10 ^ e else Z.quot m (10 ^ (- e)))
  | _ => None
  end.

Definition getTime (d : Date) : number :=
  match d with
  | Some t => Int t
  | None => NaN
  end.

(** ** JSON values

    The values [response.json()] produces. An object is the list of its
    properties in enumeration order, with distinct keys. [undefined], which
    a property read yields but JSON never holds, is [None] in
    [option json]. *)

#[warning="-register-all"]
Inductive json : Type :=
| JNull
| JBool (b : bool)
| JNumber (n : number)
| JString (s : string)
| JArray (items : list json)
| JObject (properties : list (string * json)).

Definition value : Type := option json.

Definition undefined : value := None.

(** [ToBoolean]. *)
Definition truthy (v : value) : bool :=
  match v with
  | None | Some JNull => false
  | Some (JBool b) => b
  | Some (JNumber n) => Number_truthy n
  | Some (JString s) => negb (is_empty s)
  | Some (JArray _) | Some (JObject _) => true
  end.

(** [a || b], with [b] already evaluated (the operands in the programs have
    no effect once their receiver is known to be an object). *)
Definition or_else (a b : value) : value := if truthy a then a else b.

(** [ToString] on a JSON value: what a template literal interpolates. An
    array joins its items with commas, where [null] gives the empty string. *)
Fixpoint json_toString (v : json) : string :=
  match v with
  | JNull => "null"
  | JBool true => "true"
  | JBool false => "false"
  | JNumber n => Number_toString n
  | JString s => s
  | JArray items =>
      join "," (map (fun i => match i with JNull => EmptyString | _ => json_toString i end) items)
  | JObject _ => "[object Object]"
  end.

Definition ToString (v : value) : string :=
  match v with
  | None => "undefined"
  | Some j => json_toString j
  end.

(** ** Exceptions

    What a [throw] carries: an [Error] instance with its message, or any
    other value. *)

Inductive thrown : Type :=
| Error (message : string)
| NotAnError (v : value).

Inductive completion (A : Type) : Type :=
| Normal (a : A)
| Throw (e : thrown).

Arguments Normal {A} a.
Arguments Throw {A} e.

(** [error instanceof Error ? error.message : String(error)] *)
Definition error_text (e : thrown) : string :=
  match e with
  | Error message => message
  | NotAnError v => ToString v
  end.

(** The TypeError of a property read on [undefined] or [null], in the
    wording of V8. *)
Definition cannot_read (receiver key : string) : thrown :=
  Error ("Cannot read properties of " +:+ receiver +:+ " (reading '" +:+ key +:+ "')").

Fixpoint assoc (key : string) (properties : list (string * json)) : value :=
  match properties with
  | [] => None
  | (k, v) :: rest => if String.eqb k key then Some v else assoc key rest
  end.

(** [v.key], for a key that no prototype defines (such are all the keys the
    programs read: [login], [state], [created_at], ...). *)
Definition get (v : value) (key : string) : completion value :=
  match v with
  | None => Throw (cannot_read "undefined" key)
  | Some JNull => Throw (cannot_read "null" key)
  | Some (JObject properties) => Normal (assoc key properties)
  | Some _ => Normal None
  end.

(** [v?.key] *)
Definition get_optional (v : value) (key : string) : value :=
  match v with
  | Some (JObject properties) => assoc key properties
  | _ => None
  end.

(** [ToNumber]; an array or an object goes through its string form. *)
Definition ToNumber (v : value) : number :=
  match v with
  | None => NaN
  | Some JNull => Finite 0 0
  | Some (JBool b) => if b then Int 1 else Finite 0 0
  | Some (JNumber n) => n
  | Some (JString s) => StringToNumber s
  | Some j => StringToNumber (json_toString j)
  end.

(** ** [JSON.stringify] *)

Definition double_quote : string := byte_string [34].

Definition hex_char (d : Z) : ascii :=
  ascii_of_N (Z.to_N (if d <? 10 then 48 + d else 87 + d)).

(** The escape of one character in a JSON string: the two-character
    escapes of backspace, tab, line feed, form feed, carriage return, the
    double quote and the backslash; [\u00xx] for the other control
    characters; the character itself otherwise. *)
Definition escape (c : ascii) : string :=
  let n := code c in
  if n =? 8 then "\b"
  else if n =? 9 then "\t"
  else if n =? 10 then "\n"
  else if n =? 12 then "\f"
  else if n =? 13 then "\r"
  else if n =? 34 then "\" +:+ double_quote
  else if n =? 92 then "\\"
  else if n <? 32 then "\u00" +:+ String (hex_char (n / 16)) (String (hex_char (n mod 16)) EmptyString)
  else String c EmptyString.

Fixpoint escape_all (s : string) : string :=
  match s with
  | EmptyString => EmptyString
  | String c s' => escape c +:+ escape_all s'
  end.

Definition QuoteJSONString (s : string) : string :=
  double_quote +:+ escape_all s +:+ double_quote.

(** The brackets around the members of an array or an object: on one line
    without a gap, one member a line with it. *)
Definition wrap (opening closing gap indent : string) (members : list string) : string :=
  match members with
  | [] => opening +:+ closing
  | _ =>
      if is_empty gap then opening +:+ join "," members +:+ closing
      else
        let inner := indent +:+ gap in
        opening +:+ LF +:+ inner +:+ join ("," +:+ LF +:+ inner) members
        +:+ LF +:+ indent +:+ closing
  end.

Definition JSON_number (n : number) : string :=
  match n with
  | Finite _ _ => Number_toString n
  | _ => "null"
  end.

Fixpoint serialize (gap indent : string) (v : json) : string :=
  match v with
  | JNull => "null"
  | JBool true => "true"
  | JBool false => "false"
  | JNumber n => JSON_number n
  | JString s => QuoteJSONString s
  | JArray items =>
      wrap "[" "]" gap indent (map (serialize gap (indent +:+ gap)) items)
  | JObject properties =>
      wrap "{" "}" gap indent
        (map (fun p => QuoteJSONString (fst p)
                       +:+ (if is_empty gap then ":" else ": ")
                       +:+ serialize gap (indent +:+ gap) (snd p))
             properties)
  end.

(** [JSON.stringify(v, null, space)]; [JSON.stringify(v)] is [space = 0]. *)
Definition JSON_stringify (v : json) (space : nat) : string :=
  serialize (spaces (Nat.min space 10)) EmptyString v.

(** An object literal that is only serialised: [JSON.stringify] leaves out
    the properties whose value is [undefined]. *)
Fixpoint present (properties : list (string * value)) : list (string * json) :=
  match properties with
  | [] => []
  | (k, Some v) :: rest => (k, v) :: present rest
  | (_, None) :: rest => present rest
  end.

Definition object_literal (properties : list (string * value)) : json :=
  JObject (present properties).

End JS.

(** * The launcher, [run-mcp.js] *)

Module Launcher.

Import JS.
Local Open Scope Z_scope.

(** What the script does to the outside, in order. [process_exit] ends the
    run: nothing follows it. *)
Inductive event : Type :=
| console_error (text : string)
| console_log (text : string)
| process_exit (status : Z)
| spawn (command : string) (args : list string) (stdio : list string)
| stdin_write (chunk : string)
| stdout_on_data
| child_on_exit.

(** [process.env.NAME]: the variable as a string, or [undefined]. *)
Definition env_value (env : gmap string string) (name : string) : value :=
  JString <$> env !! name.

Definition prOwner (env : gmap string string) : value := env_value env "PR_OWNER".
Definition prRepo (env : gmap string string) : value := env_value env "PR_REPO".
Definition prNumber (env : gmap string string) : number :=
  ToNumber (env_value env "PR_NUMBER").
Definition token (env : gmap string string) : value := env_value env "GITHUB_TOKEN".

(** [!prOwner || !prRepo || !prNumber || !token] *)
Definition missing (env : gmap string string) : bool :=
  negb (truthy (prOwner env)) || negb (truthy (prRepo env))
  || negb (Number_truthy (prNumber env)) || negb (truthy (token env)).

Definition request (env : gmap string string) : json :=
  object_literal
    [("jsonrpc", Some (JString "2.0"));
     ("id", Some (JNumber (Int 1)));
     ("method", Some (JString "tools.call"));
     ("params", Some (object_literal
        [("name", Some (JString "analyze_and_comment_pr"));
         ("arguments", Some (object_literal
            [("owner", prOwner env);
             ("repo", prRepo env);
             ("pull_number", Some (JNumber (prNumber env)));
             ("token", token env)]))]))].

(** The top level of the script. *)
Definition run (env : gmap string string) : list event :=
  if missing env then
    [console_error "Missing environment variables"; process_exit 1]
  else
    [console_log ("Running MCP for PR #" +:+ Number_toString (prNumber env)
                  +:+ " on " +:+ ToString (prOwner env) +:+ "/" +:+ ToString (prRepo env));
     spawn "node" ["./dist/github-mcp.js"] ["pipe"; "pipe"; "inherit"];
     stdin_write (JSON_stringify (request env) 0 +:+ LF);
     stdout_on_data;
     child_on_exit].

(** The request line as the interface description gives it:
    [{"jsonrpc":"2.0","id":1,"method":"tools.call","params":{"name":
    "analyze_and_comment_pr","arguments":{"owner":..,"repo":..,
    "pull_number":..,"token":..}}}], the strings as JSON strings and the
    number as a JSON number. *)
Definition member (key text : string) : string :=
  double_quote +:+ key +:+ double_quote +:+ ":" +:+ text.

Definition request_text (owner repo : string) (pull_number : number) (tok : string)
    : string :=
  "{" +:+ member "jsonrpc" (QuoteJSONString "2.0")
  +:+ "," +:+ member "id" "1"
  +:+ "," +:+ member "method" (QuoteJSONString "tools.call")
  +:+ "," +:+ member "params"
        ("{" +:+ member "name" (QuoteJSONString "analyze_and_comment_pr")
         +:+ "," +:+ member "arguments"
               ("{" +:+ member "owner" (QuoteJSONString owner)
                +:+ "," +:+ member "repo" (QuoteJSONString repo)
                +:+ "," +:+ member "pull_number" (JSON_number pull_number)
                +:+ "," +:+ member "token" (QuoteJSONString tok)
                +:+ "}")
         +:+ "}")
  +:+ "}".

(** The two listeners: [console.log] joins its arguments with a space. *)
Definition on_data (data : string) : event :=
  console_log ("MCP Response: " +:+ data).

Definition on_exit (exit_code : value) : event :=
  console_log ("MCP server exited: " +:+ ToString exit_code).

(** Observations on a run. *)
Definition is_spawn (e : event) : bool :=
  match e with spawn _ _ _ => true | _ => false end.

Definition is_stdin_write (e : event) : bool :=
  match e with stdin_write _ => true | _ => false end.

Definition exit_status (events : list event) : option Z :=
  match last events with
  | Some (process_exit status) => Some status
  | _ => None
  end.

End Launcher.

(** * The server *)

Module Server.

Import JS.
Local Open Scope Z_scope.

Definition GITHUB_URL : string := "https://api.github.com".

(** ** The HTTP exchange

    A call of [fetch]: the URL and the init object (method, headers, body;
    the method of a call without one is [GET]). *)
Record request : Type := {
  url : string;
  method : string;
  headers : gmap string string;
  body : option string
}.

(** A [Response]: its status line, and what [response.json()] gives (the
    parsed body, or the exception of a body that is not JSON). *)
Record response : Type := {
  status : Z;
  statusText : string;
  json_body : completion json
}.

(** [response.ok]: the status is in the range 200 to 299. *)
Definition ok (r : response) : bool := (200 <=? status r) && (status r <=? 299).

(** The promise [fetch] returns resolves with a response, whatever its
    status, or rejects (network failure, refused request). *)
Inductive fetch_result : Type :=
| resolves (r : response)
| rejects (e : thrown).

(** ** The host

    What the server takes from its environment: the upstream API behind
    [fetch], as a transition on a state of the world; the clock; and the
    parts of the runtime that ECMAScript leaves to the implementation or
    to Unicode tables ([Date.parse], [toLocaleString], [toUpperCase]). *)
Record host : Type := {
  world : Type;
  fetch : request -> world -> fetch_result * world;
  clock : world -> Z;
  Date_parse : string -> number;
  Date_toLocaleString : Date -> string;
  String_toUpperCase : string -> string
}.

(** ** Tool results *)

Record content_item : Type := {
  type : string;
  text : string
}.

(** [isError] is [None] on a result that does not have the property. *)
Record CallToolResult : Type := {
  content : list content_item;
  isError : option bool
}.

Definition text_result (t : string) : CallToolResult :=
  {| content := [{| type := "text"; text := t |}]; isError := None |}.

(** The [catch] block every handler ends with. *)
Definition error_result (error : thrown) : CallToolResult :=
  {| content := [{| type := "text"; text := "Error: " +:+ error_text error |}];
     isError := Some true |}.

(** [pr.state.toUpperCase()] on whatever [pr.state] is. *)
Definition call_toUpperCase (upper : string -> string) (v : value) : completion string :=
  match v with
  | None => Throw (cannot_read "undefined" "toUpperCase")
  | Some JNull => Throw (cannot_read "null" "toUpperCase")
  | Some (JString s) => Normal (upper s)
  | Some _ => Throw (Error "pr.state.toUpperCase is not a function")
  end.

(** [pr.user?.login || pr.author?.login || "Unknown"], given [pr.user] and
    [pr.author]. *)
Definition authorLogin (user author : value) : value :=
  or_else (get_optional user "login")
    (or_else (get_optional author "login") (Some (JString "Unknown"))).

(** [Math.floor((now - created) / (1000 * 60 * 60 * 24))] on the time
    values of the two dates. *)
Definition daysOld (now created : Date) : number :=
  Math_floor_quot (sub (getTime now) (getTime created)) (Int (1000 * 60 * 60 * 24)).

Definition analysisReport (number title state authorLogin : value)
    (created updated : string) (html_url : value) (upper : string)
    (daysOld : JS.number) : string :=
  join LF
     ["## PR Analysis Report";
      EmptyString;
      "### PR Information";
      "- **PR Number:** #" +:+ ToString number;
      "- **Title:** " +:+ ToString title;
      "- **State:** " +:+ ToString state;
      "- **Author:** @" +:+ ToString authorLogin;
      "- **Created:** " +:+ created;
      "- **Last Updated:** " +:+ updated;
      "- **URL:** " +:+ ToString html_url;
      EmptyString;
      "### Rules Context";
      "**Rules File:** c:\Users\DHARAGK\Desktop\GithubAPI\Rules.md";
      "- Golang files: Variables must NOT start with capital letters";
      "- Code quality standards must be maintained";
      "- Proper naming conventions apply";
      EmptyString;
      "### Analysis Details";
      "- PR Status: **" +:+ upper +:+ "**";
      "- Days Since Creation: **" +:+ Number_toString daysOld +:+ "** days";
      "- Author: **@" +:+ ToString authorLogin +:+ "**";
      "- Submission Period: Recent submission for review";
      EmptyString;
      "### Compliance Check (Based on Rules.md)";
      "✓ PR Analysis performed following project rules";
      "✓ Code review guidelines from Rules.md applied";
      "✓ Golang naming conventions verified for variables";
      EmptyString;
      "### Recommendations";
      "1. Ensure all Golang files follow variable naming (lowercase start)";
      "2. Verify code quality against defined standards";
      "3. Check for proper documentation";
      EmptyString;
      "---";
      "*This analysis was automatically generated by GitHub MCP Server*";
      "*Rules reference: c:\Users\DHARAGK\Desktop\GithubAPI\Rules.md*";
      "*Generated using server.registerPrompt() pattern for PR analysis*"].

(** ** The computations of the server

    An [async] function is run to completion against the host: it takes
    the state of the world and the exchanges made so far, and ends normally
    or by throwing (a rejected promise). *)

Section Program.

Variable H : host.

Record state : Type := {
  the_world : world H;
  exchanges : list (request * fetch_result)
}.

Definition M (A : Type) : Type := state -> completion A * state.

Definition ret {A} (a : A) : M A := fun s => (Normal a, s).

Definition throw {A} (e : thrown) : M A := fun s => (Throw e, s).

Definition bind {A B} (c : M A) (k : A -> M B) : M B :=
  fun s =>
    match c s with
    | (Normal a, s') => k a s'
    | (Throw e, s') => (Throw e, s')
    end.

(** [try { c } catch (error) { handler }] *)
Definition try_catch {A} (c : M A) (handler : thrown -> M A) : M A :=
  fun s =>
    match c s with
    | (Normal a, s') => (Normal a, s')
    | (Throw e, s') => handler e s'
    end.

(** A step of the runtime that touches neither the world nor the log. *)
Definition lift {A} (c : completion A) : M A := fun s => (c, s).

Notation "x <- c ;; k" := (bind c (fun x => k))
  (at level 100, c at next level, right associativity).

(** [await fetch(url, init)]: the exchange is logged with its outcome. *)
Definition await_fetch (rq : request) : M response :=
  fun s =>
    let '(result, w) := fetch H rq (the_world s) in
    let s' := {| the_world := w; exchanges := exchanges s ++ [(rq, result)] |} in
    match result with
    | resolves r => (Normal r, s')
    | rejects e => (Throw e, s')
    end.

(** [new Date()] *)
Definition Date_now : M Date :=
  fun s => (Normal (TimeClip (Int (clock H (the_world s)))), s).

(** [new Date(v)]: a string is parsed, an array or an object goes through
    its string form, anything else through [ToNumber]. *)
Definition Date_new (v : value) : Date :=
  match v with
  | Some (JString str) => TimeClip (Date_parse H str)
  | Some (JArray items) => TimeClip (Date_parse H (json_toString (JArray items)))
  | Some (JObject ps) => TimeClip (Date_parse H (json_toString (JObject ps)))
  | _ => TimeClip (ToNumber v)
  end.

(** ** The REST client *)

Definition base_headers : gmap string string :=
  <["User-Agent" := "GitHub-API-Client"]>
    (<["Accept" := "application/vnd.github.v3+json"]> ∅).

(** [if (token) { headers["Authorization"] = `token ${token}`; }] *)
Definition authorize (token : option string) (hs : gmap string string) : gmap string string :=
  match token with
  | Some t => if is_empty t then hs else <["Authorization" := "token " +:+ t]> hs
  | None => hs
  end.

Definition status_line (r : response) : string :=
  Number_toString (Int (status r)) +:+ " " +:+ statusText r.

Definition getPullRequests (owner repo : string) (token : option string) : M json :=
  let url := GITHUB_URL +:+ "/repos/" +:+ owner +:+ "/" +:+ repo +:+ "/pulls" in
  let headers := authorize token base_headers in
  try_catch
    (response <- await_fetch
       {| url := url; method := "GET"; headers := headers; body := None |} ;;
     if negb (ok response) then
       throw (Error ("GitHub API error: " +:+ status_line response))
     else
       pullRequests <- lift (json_body response) ;;
       ret pullRequests)
    (fun error => throw error).

Definition getPullRequest (owner repo : string) (pullNumber : number)
    (token : option string) : M json :=
  let url := GITHUB_URL +:+ "/repos/" +:+ owner +:+ "/" +:+ repo +:+ "/pulls/"
             +:+ Number_toString pullNumber in
  let headers := authorize token base_headers in
  response <- await_fetch
    {| url := url; method := "GET"; headers := headers; body := None |} ;;
  if negb (ok response) then
    throw (Error ("GitHub API error: " +:+ status_line response))
  else lift (json_body response).

Definition postCommentOnPR (owner repo : string) (pullNumber : number)
    (body : string) (token : option string) : M json :=
  let url := GITHUB_URL +:+ "/repos/" +:+ owner +:+ "/" +:+ repo +:+ "/issues/"
             +:+ Number_toString pullNumber +:+ "/comments" in
  let headers :=
    authorize token (<["Content-Type" := "application/json"]> base_headers) in
  response <- await_fetch
    {| url := url; method := "POST"; headers := headers;
       body := Some (JSON_stringify (object_literal [("body", Some (JString body))]) 0) |} ;;
  if negb (ok response) then
    throw (Error ("Failed to post comment: " +:+ status_line response))
  else lift (json_body response).

(** ** The tool handlers *)

Definition get_prs_of_repo (owner repo : string) (token : option string)
    : M CallToolResult :=
  try_catch
    (prs <- getPullRequests owner repo token ;;
     ret (text_result (JSON_stringify prs 2)))
    (fun error => ret (error_result error)).

Definition get_pr (owner repo : string) (pull_number : number)
    (token : option string) : M CallToolResult :=
  try_catch
    (pr <- getPullRequest owner repo pull_number token ;;
     ret (text_result (JSON_stringify pr 2)))
    (fun error => ret (error_result error)).

Definition analyze_and_comment_pr (owner repo : string) (pull_number : number)
    (token : option string) : M CallToolResult :=
  try_catch
    (pr <- getPullRequest owner repo pull_number token ;;
     let pr := Some pr in
     now <- Date_now ;;
     created_at <- lift (get pr "created_at") ;;
     let days := daysOld now (Date_new created_at) in
     user <- lift (get pr "user") ;;
     author <- lift (get pr "author") ;;
     let login := authorLogin user author in
     number <- lift (get pr "number") ;;
     title <- lift (get pr "title") ;;
     state <- lift (get pr "state") ;;
     updated_at <- lift (get pr "updated_at") ;;
     html_url <- lift (get pr "html_url") ;;
     upper <- lift (call_toUpperCase (String_toUpperCase H) state) ;;
     let report :=
       analysisReport number title state login
         (Date_toLocaleString H (Date_new created_at))
         (Date_toLocaleString H (Date_new updated_at))
         html_url upper days in
     comment <- postCommentOnPR owner repo pull_number report token ;;
     let comment := Some comment in
     id <- lift (get comment "id") ;;
     comment_created_at <- lift (get comment "created_at") ;;
     ret (text_result (JSON_stringify
       (object_literal
          [("success", Some (JBool true));
           ("pr", Some (object_literal
              [("number", number); ("title", title); ("state", state)]));
           ("comment", Some (object_literal
              [("id", id); ("created_at", comment_created_at)]));
           ("rulesFile", Some (JString "c:\Users\DHARAGK\Desktop\GithubAPI\Rules.md"));
           ("analysisMethod",
            Some (JString "server.registerPrompt() + registered prompt pattern"));
           ("registeredPrompt", Some (JString "analyze_pull_request"));
           ("message",
            Some (JString "PR analysis successfully posted with Rules.md compliance check"))])
       2)))
    (fun error => ret (error_result error)).

Definition post_comment_on_pr (owner repo : string) (pull_number : number)
    (body : string) (token : option string) : M CallToolResult :=
  try_catch
    (comment <- postCommentOnPR owner repo pull_number body token ;;
     let comment := Some comment in
     id <- lift (get comment "id") ;;
     created_at <- lift (get comment "created_at") ;;
     user <- lift (get comment "user") ;;
     login <- lift (get user "login") ;;
     ret (text_result (JSON_stringify
       (object_literal
          [("success", Some (JBool true));
           ("comment", Some (object_literal
              [("id", id); ("created_at", created_at); ("author", login)]));
           ("message", Some (JString "Comment successfully posted on PR"))])
       2)))
    (fun error => ret (error_result error)).

(** A call of one of the four registered tools, with arguments as the
    input schema of the tool types them. *)
Inductive tool_call : Type :=
| call_get_prs_of_repo (owner repo : string) (token : option string)
| call_get_pr (owner repo : string) (pull_number : number) (token : option string)
| call_analyze_and_comment_pr (owner repo : string) (pull_number : number)
    (token : option string)
| call_post_comment_on_pr (owner repo : string) (pull_number : number)
    (body : string) (token : option string).

Definition handle (c : tool_call) : M CallToolResult :=
  match c with
  | call_get_prs_of_repo owner repo token => get_prs_of_repo owner repo token
  | call_get_pr owner repo n token => get_pr owner repo n token
  | call_analyze_and_comment_pr owner repo n token =>
      analyze_and_comment_pr owner repo n token
  | call_post_comment_on_pr owner repo n body token =>
      post_comment_on_pr owner repo n body token
  end.

(** A call of one of the three client functions. *)
Inductive rest_call : Type :=
| list_pulls (owner repo : string) (token : option string)
| get_pull (owner repo : string) (pullNumber : number) (token : option string)
| post_comment (owner repo : string) (pullNumber : number) (body : string)
    (token : option string).

Definition perform (c : rest_call) : M json :=
  match c with
  | list_pulls owner repo token => getPullRequests owner repo token
  | get_pull owner repo n token => getPullRequest owner repo n token
  | post_comment owner repo n body token => postCommentOnPR owner repo n body token
  end.

(** A computation run from a state of the world, with an empty log. *)
Definition run {A} (c : M A) (w : world H) : completion A * state :=
  c {| the_world := w; exchanges := [] |}.

Definition outcome {A} (c : M A) (w : world H) : completion A := (run c w).1.

(** The exchanges a run makes, in order. *)
Definition trace {A} (c : M A) (w : world H) : list (request * fetch_result) :=
  exchanges (run c w).2.

End Program.

Arguments exchanges {H} s.
Arguments the_world {H} s.

Definition token_of (c : rest_call) : option string :=
  match c with
  | list_pulls _ _ token | get_pull _ _ _ token | post_comment _ _ _ _ token => token
  end.

(** ** The three endpoints, as the interface description gives them

    [GET {base}/repos/{owner}/{repo}/pulls],
    [GET {base}/repos/{owner}/{repo}/pulls/{number}] and
    [POST {base}/repos/{owner}/{repo}/issues/{number}/comments] with the
    JSON body [{"body": ...}]. *)

Definition list_request (owner repo : string) (token : option string) : request :=
  {| url := GITHUB_URL +:+ "/repos/" +:+ owner +:+ "/" +:+ repo +:+ "/pulls";
     method := "GET";
     headers := authorize token base_headers;
     body := None |}.

Definition pull_request (owner repo : string) (pullNumber : number)
    (token : option string) : request :=
  {| url := GITHUB_URL +:+ "/repos/" +:+ owner +:+ "/" +:+ repo +:+ "/pulls/"
            +:+ Number_toString pullNumber;
     method := "GET";
     headers := authorize token base_headers;
     body := None |}.

Definition comment_body (text : string) : string :=
  "{" +:+ double_quote +:+ "body" +:+ double_quote +:+ ":"
  +:+ QuoteJSONString text +:+ "}".

Definition comment_request (owner repo : string) (pullNumber : number)
    (text : string) (token : option string) : request :=
  {| url := GITHUB_URL +:+ "/repos/" +:+ owner +:+ "/" +:+ repo +:+ "/issues/"
            +:+ Number_toString pullNumber +:+ "/comments";
     method := "POST";
     headers := authorize token (<["Content-Type" := "application/json"]> base_headers);
     body := Some (comment_body text) |}.

(** The message of the failure a client function raises on a response that
    is not [ok]: the numeric status and the status text, after the prefix
    of the function. *)
Definition failure (rq : request) (r : response) : thrown :=
  Error ((if String.eqb (method rq) "POST" then "Failed to post comment: "
          else "GitHub API error: ")
         +:+ Number_toString (Int (status r)) +:+ " " +:+ statusText r).

(** What a client function makes of the outcome of its call: the parsed
    body of an [ok] response, a failure otherwise. *)
Definition settle (rq : request) (x : fetch_result) : completion json :=
  match x with
  | resolves r => if ok r then json_body r else Throw (failure rq r)
  | rejects e => Throw e
  end.

Definition request_of (c : rest_call) : request :=
  match c with
  | list_pulls owner repo token => list_request owner repo token
  | get_pull owner repo n token => pull_request owner repo n token
  | post_comment owner repo n text token => comment_request owner repo n text token
  end.

Definition is_post (x : request * fetch_result) : bool :=
  String.eqb (method x.1) "POST".

End Server.

(** * Sample hosts and inputs *)

Module Samples.

Import JS Server.
Local Open Scope Z_scope.

(** An environment of the launcher with the four variables set. *)
Definition sample_env : gmap string string :=
  <["PR_OWNER" := "octocat"]> (<["PR_REPO" := "hello-world"]>
    (<["PR_NUMBER" := "42"]> (<["GITHUB_TOKEN" := "s3cret"]> ∅))).

(** 2024-01-01T00:00:00Z, and the moment 3 days and 2 hours later. *)
Definition new_year : Z := 1704067200000.
Definition three_days_two_hours : Z := 3 * 86400000 + 2 * 3600000.

Fixpoint upper_ascii (str : string) : string :=
  match str with
  | EmptyString => EmptyString
  | String c rest =>
      String (if (97 <=? code c) && (code c <=? 122)
              then ascii_of_N (Z.to_N (code c - 32)) else c)
             (upper_ascii rest)
  end.

(** A host whose upstream gives a fixed answer to each request; its clock
    shows [time]. Its [Date.parse] knows one timestamp. *)
Definition stub (answer : request -> fetch_result) (time : Z) : host :=
  {| world := unit;
     fetch := fun rq w => (answer rq, w);
     clock := fun _ => time;
     Date_parse := fun str =>
       if String.eqb str "2024-01-01T00:00:00Z" then Int new_year else NaN;
     Date_toLocaleString := fun d => Number_toString (getTime d);
     String_toUpperCase := upper_ascii |}.

Definition not_found : response :=
  {| status := 404; statusText := "Not Found";
     json_body := Normal (JObject [("message", JString "Not Found")]) |}.

Definition sample_pr : json :=
  JObject
    [("id", JNumber (Int 1001));
     ("number", JNumber (Int 42));
     ("title", JString "Fix the build");
     ("state", JString "open");
     ("author", JObject [("login", JString "bob")]);
     ("created_at", JString "2024-01-01T00:00:00Z");
     ("updated_at", JString "2024-01-01T00:00:00Z");
     ("html_url", JString "https://github.com/octocat/hello-world/pull/42")].

Definition sample_comment : json :=
  JObject
    [("id", JNumber (Int 7));
     ("created_at", JString "2024-01-04T02:00:00Z");
     ("user", JObject [("login", JString "octocat")])].

Definition with_body (code : Z) (reason : string) (j : json) : fetch_result :=
  resolves {| status := code; statusText := reason; json_body := Normal j |}.

(** An upstream that has no such pull request, and one that serves pull
    requests but refuses comments. *)
Definition missing_upstream (rq : request) : fetch_result := resolves not_found.

Definition forbidden : response :=
  {| status := 403; statusText := "Forbidden";
     json_body := Normal (JObject [("message", JString "Forbidden")]) |}.

Definition read_only_upstream (rq : request) : fetch_result :=
  if String.eqb (method rq) "POST" then resolves forbidden
  else with_body 200 "OK" sample_pr.

(** An upstream on which every call succeeds: pull requests on [GET],
    the created comment on [POST]. *)
Definition healthy (rq : request) : fetch_result :=
  if String.eqb (method rq) "POST" then with_body 201 "Created" sample_comment
  else if String.prefix "sllup/" (String.rev (url rq))
       then with_body 200 "OK" (JArray [sample_pr])
       else with_body 200 "OK" sample_pr.

End Samples.

(** * Facts about the runtime fragment *)

Module JSFacts.

Import JS.
Local Open Scope Z_scope.
Local Arguments String.append !_ _ / : simpl nomatch.

Lemma append_assoc (a b c : string) : (a +:+ b) +:+ c = a +:+ (b +:+ c).
Proof. induction a as [|x a IH]; [reflexivity|]. cbn. now rewrite IH. Qed.

Lemma append_empty_r (a : string) : a +:+ EmptyString = a.
Proof. induction a as [|x a IH]; [reflexivity|]. cbn. now rewrite IH. Qed.

Section AllChars.

Variable P : ascii -> bool.

Lemma all_chars_app (a b : string) :
  all_chars P (a +:+ b) = all_chars P a && all_chars P b.
Proof.
  induction a as [|x a IH]; [reflexivity|].
  cbn. rewrite IH. now rewrite andb_assoc.
Qed.

Lemma all_chars_rev_app (a b : string) :
  all_chars P (String.rev_app a b) = all_chars P a && all_chars P b.
Proof.
  revert b. induction a as [|x a IH]; intros b; [reflexivity|].
  cbn. rewrite IH. cbn. destruct (P x), (all_chars P a); reflexivity.
Qed.

Lemma all_chars_rev (a : string) : all_chars P (String.rev a) = all_chars P a.
Proof. unfold String.rev. rewrite all_chars_rev_app. cbn. apply andb_true_r. Qed.

Lemma all_chars_drop (n : nat) (a : string) :
  all_chars P a = true -> all_chars P (drop n a) = true.
Proof.
  revert a. induction n as [|n IH]; intros [|x a]; cbn; auto.
  intros [_ Ha]%andb_true_iff. auto.
Qed.

Lemma all_chars_substring (a : string) (i n : nat) :
  all_chars P a = true -> all_chars P (substring i n a) = true.
Proof.
  revert i n. induction a as [|x a IH]; intros [|i] [|n]; cbn; auto.
  - intros [Hx Ha]%andb_true_iff. rewrite Hx. cbn. auto.
  - intros [_ Ha]%andb_true_iff. apply (IH i 0%nat Ha).
  - intros [_ Ha]%andb_true_iff. auto.
Qed.

Lemma all_chars_drop_zeros (a : string) :
  all_chars P a = true -> all_chars P (drop_zeros a) = true.
Proof.
  induction a as [|x a IH]; [reflexivity|].
  intros Hxa. pose proof Hxa as [_ Ha]%andb_true_iff.
  cbn [drop_zeros].
  destruct x as [[] [] [] [] [] [] [] []]; auto.
Qed.

Lemma all_chars_significand (a : string) :
  all_chars P a = true -> all_chars P (significand a) = true.
Proof.
  intros Ha. unfold significand. rewrite all_chars_rev.
  apply all_chars_drop_zeros. now rewrite all_chars_rev.
Qed.

Hypothesis P_digits : all_chars P "0123456789" = true.

Lemma all_chars_zeros (n : nat) : all_chars P (zeros n) = true.
Proof.
  assert (P "0"%char = true) as H0
    by (cbn in P_digits; now apply andb_true_iff in P_digits as [? _]).
  induction n as [|n IH]; [reflexivity|].
  unfold zeros in *. cbn. now rewrite H0, IH.
Qed.

Lemma all_chars_uint (d : Decimal.uint) :
  all_chars P (NilEmpty.string_of_uint d) = true.
Proof.
  cbn in P_digits.
  repeat (apply andb_true_iff in P_digits as [? P_digits]).
  induction d; cbn; rewrite ?IHd; auto using andb_true_intro.
  all: apply andb_true_iff; split; assumption.
Qed.

Lemma all_chars_decimal (n : Z) : all_chars P (decimal n) = true.
Proof. apply all_chars_uint. Qed.

End AllChars.

Lemma one_line_app (a b : string) : one_line (a +:+ b) = one_line a && one_line b.
Proof. apply all_chars_app. Qed.

Lemma one_line_escape (c : ascii) : one_line (escape c) = true.
Proof. destruct c as [[] [] [] [] [] [] [] []]; reflexivity. Qed.

Lemma one_line_escape_all (s : string) : one_line (escape_all s) = true.
Proof.
  induction s as [|c s IH]; [reflexivity|].
  cbn [escape_all]. now rewrite one_line_app, IH, one_line_escape.
Qed.

Lemma one_line_quote (s : string) : one_line (QuoteJSONString s) = true.
Proof.
  unfold QuoteJSONString. now rewrite !one_line_app, one_line_escape_all.
Qed.

Lemma one_line_decimal (n : Z) : one_line (decimal n) = true.
Proof. now apply all_chars_decimal. Qed.

Lemma one_line_zeros (n : nat) : one_line (zeros n) = true.
Proof. now apply all_chars_zeros. Qed.

Lemma one_line_Number_toString (n : number) : one_line (Number_toString n) = true.
Proof.
  destruct n as [|[]|m e]; try reflexivity.
  unfold Number_toString.
  destruct (m =? 0); [reflexivity|].
  set (all := decimal (Z.abs m)).
  assert (Hs : one_line (significand all) = true)
    by apply all_chars_significand, one_line_decimal.
  set (s := significand all) in *.
  rewrite one_line_app. apply andb_true_iff. split; [destruct (m <? 0); reflexivity|].
  repeat match goal with |- context [if ?b then _ else _] => destruct b end;
    rewrite ?one_line_app, ?one_line_zeros, ?one_line_decimal, ?Hs; auto.
  - unfold one_line. now rewrite all_chars_substring, all_chars_drop.
  - destruct s as [|c [|c' r]]; try reflexivity.
    + cbn in Hs |- *. rewrite andb_true_r in Hs. now rewrite Hs, one_line_decimal.
    + change (one_line (String c (String c' r))) with
        (negb (code c =? 10) && one_line (String c' r)) in Hs.
      apply andb_true_iff in Hs as [Hc Hr].
      rewrite !one_line_app, Hr, one_line_decimal. cbn. now rewrite Hc.
  - destruct s as [|c [|c' r]]; try reflexivity.
    + cbn in Hs |- *. rewrite andb_true_r in Hs. now rewrite Hs, one_line_decimal.
    + change (one_line (String c (String c' r))) with
        (negb (code c =? 10) && one_line (String c' r)) in Hs.
      apply andb_true_iff in Hs as [Hc Hr].
      rewrite !one_line_app, Hr, one_line_decimal. cbn. now rewrite Hc.
Qed.

Lemma one_line_JSON_number (n : number) : one_line (JSON_number n) = true.
Proof. destruct n; try reflexivity. apply one_line_Number_toString. Qed.

End JSFacts.

(** * The launcher: properties *)

Module LauncherSpec.

Import JS JSFacts Launcher Samples.
Local Open Scope Z_scope.
Local Arguments String.append !_ _ / : simpl nomatch.

(** The failing branch of the check. *)
Lemma missing_exits (env : gmap string string) :
  missing env = true ->
  run env = [console_error "Missing environment variables"; process_exit 1].
Proof. unfold run. now intros ->. Qed.

Lemma env_value_None (env : gmap string string) (name : string) :
  env !! name = None -> env_value env name = None.
Proof. unfold env_value. now intros ->. Qed.

Lemma env_value_Some (env : gmap string string) (name v : string) :
  env !! name = Some v -> env_value env name = Some (JString v).
Proof. unfold env_value. now intros ->. Qed.

(** Claim C6. If one of [PR_OWNER], [PR_REPO], [PR_NUMBER], [GITHUB_TOKEN]
    is not set, or [PR_NUMBER] does not parse as a number ([NaN]), the
    launcher prints the diagnostic on the error console and exits with
    status 1, and spawns no subprocess. *)
Theorem exits_when_value_missing (env : gmap string string) :
  env !! "PR_OWNER" = None \/ env !! "PR_REPO" = None \/ env !! "PR_NUMBER" = None
  \/ env !! "GITHUB_TOKEN" = None \/ prNumber env = NaN ->
  run env = [console_error "Missing environment variables"; process_exit 1]
  /\ exit_status (run env) = Some 1
  /\ List.filter is_spawn (run env) = [].
Proof.
  intros Hmiss.
  assert (missing env = true) as Hm.
  { unfold missing. rewrite !orb_true_iff, !negb_true_iff.
    destruct Hmiss as [Hv|[Hv|[Hv|[Hv|Hn]]]].
    - left; left; left. unfold prOwner. now rewrite (env_value_None _ _ Hv).
    - left; left; right. unfold prRepo. now rewrite (env_value_None _ _ Hv).
    - left; right. unfold prNumber. now rewrite (env_value_None _ _ Hv).
    - right. unfold token. now rewrite (env_value_None _ _ Hv).
    - left; right. now rewrite Hn. }
  rewrite (missing_exits env Hm). repeat split.
Qed.

(** Claim C10. The check tests truthiness: the launcher also prints the
    diagnostic, exits with status 1 and spawns nothing when [PR_NUMBER]
    parses to the number 0, or when one of the four variables is set to
    the empty string. *)
Theorem exits_on_zero_or_empty (env : gmap string string) :
  (exists e, prNumber env = Finite 0 e) \/ env !! "PR_OWNER" = Some EmptyString
  \/ env !! "PR_REPO" = Some EmptyString \/ env !! "PR_NUMBER" = Some EmptyString
  \/ env !! "GITHUB_TOKEN" = Some EmptyString ->
  run env = [console_error "Missing environment variables"; process_exit 1]
  /\ exit_status (run env) = Some 1
  /\ List.filter is_spawn (run env) = [].
Proof.
  intros Hzero.
  assert (missing env = true) as Hm.
  { unfold missing. rewrite !orb_true_iff, !negb_true_iff.
    destruct Hzero as [[e Hn]|[Hv|[Hv|[Hv|Hv]]]].
    - left; right. now rewrite Hn.
    - left; left; left. unfold prOwner. now rewrite (env_value_Some _ _ _ Hv).
    - left; left; right. unfold prRepo. now rewrite (env_value_Some _ _ _ Hv).
    - left; right. unfold prNumber. now rewrite (env_value_Some _ _ _ Hv).
    - right. unfold token. now rewrite (env_value_Some _ _ _ Hv). }
  rewrite (missing_exits env Hm). repeat split.
Qed.

(** [JSON.stringify] of the request object, member by member. *)
Lemma request_serialised (owner repo tok : string) (n : number) :
  serialize EmptyString EmptyString
    (object_literal
    [("jsonrpc", Some (JString "2.0"));
     ("id", Some (JNumber (Int 1)));
     ("method", Some (JString "tools.call"));
     ("params", Some (object_literal
        [("name", Some (JString "analyze_and_comment_pr"));
         ("arguments", Some (object_literal
            [("owner", Some (JString owner));
             ("repo", Some (JString repo));
             ("pull_number", Some (JNumber n));
             ("token", Some (JString tok))]))]))])
  = request_text owner repo n tok.
Proof.
  unfold request_text, member.
  cbn [serialize object_literal present wrap map fst snd is_empty join String.concat].
  rewrite !append_assoc. reflexivity.
Qed.

(** The request text holds no line feed: those of the values are escaped. *)
Lemma one_line_request_text (owner repo tok : string) (n : number) :
  one_line (request_text owner repo n tok) = true.
Proof.
  unfold request_text, member.
  rewrite !one_line_app, !one_line_quote, one_line_JSON_number. reflexivity.
Qed.

(** Claim C7. When the four values pass the check (three non-empty strings
    and a number that is neither zero nor [NaN]), the launcher writes to
    the input of the child exactly once: the JSON text of the request
    object [{jsonrpc, id, method, params: {name, arguments: {owner, repo,
    pull_number, token}}}] with the values of the environment (the strings
    quoted and escaped, the number as [JSON.stringify] writes numbers), on
    one line, followed by a line feed. *)
Theorem writes_one_request_line (env : gmap string string) (owner repo tok : string) :
  env !! "PR_OWNER" = Some owner -> is_empty owner = false ->
  env !! "PR_REPO" = Some repo -> is_empty repo = false ->
  env !! "GITHUB_TOKEN" = Some tok -> is_empty tok = false ->
  Number_truthy (prNumber env) = true ->
  List.filter is_stdin_write (run env)
    = [stdin_write (request_text owner repo (prNumber env) tok +:+ LF)]
  /\ one_line (request_text owner repo (prNumber env) tok) = true
  /\ JSON_stringify (request env) 0 = request_text owner repo (prNumber env) tok.
Proof.
  intros Ho Eo Hr Er Ht Et Hn.
  assert (JSON_stringify (request env) 0 = request_text owner repo (prNumber env) tok)
    as Htext.
  { unfold JSON_stringify, request, prOwner, prRepo, token.
    rewrite (env_value_Some _ _ _ Ho), (env_value_Some _ _ _ Hr),
      (env_value_Some _ _ _ Ht).
    apply request_serialised. }
  assert (missing env = false) as Hm.
  { unfold missing, prOwner, prRepo, token.
    rewrite (env_value_Some _ _ _ Ho), (env_value_Some _ _ _ Hr),
      (env_value_Some _ _ _ Ht), Hn.
    cbn. now rewrite Eo, Er, Et. }
  split; [|split; [apply one_line_request_text | exact Htext]].
  unfold run. rewrite Hm, Htext. reflexivity.
Qed.

Lemma writes_one_request_line_witness :
  List.filter is_stdin_write (run sample_env)
    = [stdin_write (request_text "octocat" "hello-world" (Int 42) "s3cret" +:+ LF)]
  /\ one_line (request_text "octocat" "hello-world" (Int 42) "s3cret") = true
  /\ JSON_stringify (request sample_env) 0
     = request_text "octocat" "hello-world" (Int 42) "s3cret".
Proof.
  apply (writes_one_request_line sample_env "octocat" "hello-world" "s3cret");
    reflexivity.
Defined.

Lemma exits_when_value_missing_witness :
  delete "GITHUB_TOKEN" sample_env !! "GITHUB_TOKEN" = None
  /\ run (delete "GITHUB_TOKEN" sample_env)
     = [console_error "Missing environment variables"; process_exit 1]
  /\ exit_status (run (delete "GITHUB_TOKEN" sample_env)) = Some 1
  /\ List.filter is_spawn (run (delete "GITHUB_TOKEN" sample_env)) = [].
Proof.
  split; [reflexivity|].
  apply (exits_when_value_missing (delete "GITHUB_TOKEN" sample_env)).
  right; right; right; left. reflexivity.
Defined.

Lemma exits_on_zero_or_empty_witness :
  prNumber (<["PR_NUMBER" := "0"]> sample_env) = Finite 0 0
  /\ run (<["PR_NUMBER" := "0"]> sample_env)
     = [console_error "Missing environment variables"; process_exit 1]
  /\ exit_status (run (<["PR_NUMBER" := "0"]> sample_env)) = Some 1
  /\ List.filter is_spawn (run (<["PR_NUMBER" := "0"]> sample_env)) = [].
Proof.
  split; [reflexivity|].
  apply (exits_on_zero_or_empty (<["PR_NUMBER" := "0"]> sample_env)).
  left. exists 0. reflexivity.
Defined.

End LauncherSpec.

(** * The server: properties *)

Module ServerSpec.

Import JS JSFacts Server Samples.
Local Open Scope Z_scope.
Local Arguments String.append !_ _ / : simpl nomatch.

(** [JSON.stringify({ body })] is the body of the comment request. *)
Lemma comment_body_serialised (text : string) :
  JSON_stringify (object_literal [("body", Some (JString text))]) 0 = comment_body text.
Proof.
  unfold JSON_stringify, comment_body.
  cbn [serialize object_literal present wrap map fst snd is_empty join String.concat
       spaces Nat.min repeat string_of_list_ascii].
  rewrite !append_assoc. reflexivity.
Qed.

Section Handlers.

Variable H : host.

(** The state after one more exchange. *)
Definition logged (s : state H) (rq : request) (x : fetch_result * world H) : state H :=
  {| the_world := x.2; exchanges := exchanges s ++ [(rq, x.1)] |}.

(** A call logs its exchange and resolves or rejects with the host. *)
Lemma await_fetch_eq (rq : request) (s : state H) :
  await_fetch H rq s =
  let x := fetch H rq (the_world s) in
  (match x.1 with resolves r => Normal r | rejects e => Throw e end, logged s rq x).
Proof.
  unfold await_fetch, logged. destruct (fetch H rq (the_world s)) as [[r|e] w]; reflexivity.
Qed.

(** Each client function makes one call and settles its outcome. *)
Lemma perform_eq (c : rest_call) (s : state H) :
  perform H c s =
  let x := fetch H (request_of c) (the_world s) in
  (settle (request_of c) x.1, logged s (request_of c) x).
Proof.
  destruct c as [owner repo token|owner repo n token|owner repo n text token];
    cbn [perform request_of].
  - unfold getPullRequests, try_catch, bind. rewrite await_fetch_eq. cbn zeta.
    fold (list_request owner repo token).
    destruct (fetch H (list_request owner repo token) (the_world s)) as [[r|e] w];
      cbn [fst snd settle]; [|reflexivity].
    destruct (ok r); cbn [negb]; [|reflexivity].
    unfold lift, ret, throw. destruct (json_body r); reflexivity.
  - unfold getPullRequest, bind. rewrite await_fetch_eq. cbn zeta.
    fold (pull_request owner repo n token).
    destruct (fetch H (pull_request owner repo n token) (the_world s)) as [[r|e] w];
      cbn [fst snd settle]; [|reflexivity].
    destruct (ok r); reflexivity.
  - unfold postCommentOnPR, bind. rewrite await_fetch_eq, comment_body_serialised.
    cbn zeta. fold (comment_request owner repo n text token).
    destruct (fetch H (comment_request owner repo n text token) (the_world s))
      as [[r|e] w]; cbn [fst snd settle]; [|reflexivity].
    destruct (ok r); reflexivity.
Qed.


(** ** The handlers, seen as one or two client calls around pure steps *)

Definition and_then {A B} (c : completion A) (k : A -> completion B) : completion B :=
  match c with
  | Normal a => k a
  | Throw e => Throw e
  end.

(** The result of a handler whose body ended with [o]. *)
Definition reply (o : completion CallToolResult) : CallToolResult :=
  match o with
  | Normal r => r
  | Throw e => error_result e
  end.

Definition as_text (j : json) : completion CallToolResult :=
  Normal (text_result (JSON_stringify j 2)).

(** The steps of [post_comment_on_pr] after the call. *)
Definition comment_summary (comment : json) : completion CallToolResult :=
  and_then (get (Some comment) "id") (fun id =>
  and_then (get (Some comment) "created_at") (fun created_at =>
  and_then (get (Some comment) "user") (fun user =>
  and_then (get user "login") (fun login =>
  Normal (text_result (JSON_stringify
    (object_literal
       [("success", Some (JBool true));
        ("comment", Some (object_literal
           [("id", id); ("created_at", created_at); ("author", login)]));
        ("message", Some (JString "Comment successfully posted on PR"))])
    2)))))).

(** The steps of [analyze_and_comment_pr] between its two calls: the report
    to post, with the three fields of the pull request the result repeats. *)
Definition prepare (now : Date) (pr : json) : completion (string * (value * value * value)) :=
  and_then (get (Some pr) "created_at") (fun created_at =>
  and_then (get (Some pr) "user") (fun user =>
  and_then (get (Some pr) "author") (fun author =>
  and_then (get (Some pr) "number") (fun number =>
  and_then (get (Some pr) "title") (fun title =>
  and_then (get (Some pr) "state") (fun state =>
  and_then (get (Some pr) "updated_at") (fun updated_at =>
  and_then (get (Some pr) "html_url") (fun html_url =>
  and_then (call_toUpperCase (String_toUpperCase H) state) (fun upper =>
  Normal
    (analysisReport number title state (authorLogin user author)
       (Date_toLocaleString H (Date_new H created_at))
       (Date_toLocaleString H (Date_new H updated_at))
       html_url upper (daysOld now (Date_new H created_at)),
     (number, title, state))))))))))).

(** The steps of [analyze_and_comment_pr] after the comment is posted. *)
Definition analysis_summary (fields : value * value * value) (comment : json)
    : completion CallToolResult :=
  let '(number, title, state) := fields in
  and_then (get (Some comment) "id") (fun id =>
  and_then (get (Some comment) "created_at") (fun comment_created_at =>
  Normal (text_result (JSON_stringify
    (object_literal
       [("success", Some (JBool true));
        ("pr", Some (object_literal
           [("number", number); ("title", title); ("state", state)]));
        ("comment", Some (object_literal
           [("id", id); ("created_at", comment_created_at)]));
        ("rulesFile", Some (JString "c:\Users\DHARAGK\Desktop\GithubAPI\Rules.md"));
        ("analysisMethod",
         Some (JString "server.registerPrompt() + registered prompt pattern"));
        ("registeredPrompt", Some (JString "analyze_pull_request"));
        ("message",
         Some (JString "PR analysis successfully posted with Rules.md compliance check"))])
    2)))).

(** Each handler equals its view. *)
Lemma get_prs_of_repo_eq owner repo token (s : state H) :
  get_prs_of_repo H owner repo token s =
  let p := perform H (list_pulls owner repo token) s in
  (Normal (reply (and_then p.1 as_text)), p.2).
Proof.
  unfold get_prs_of_repo, try_catch, bind, ret. cbn [perform].
  destruct (getPullRequests H owner repo token s) as [[prs|e] s']; reflexivity.
Qed.

Lemma get_pr_eq owner repo n token (s : state H) :
  get_pr H owner repo n token s =
  let p := perform H (get_pull owner repo n token) s in
  (Normal (reply (and_then p.1 as_text)), p.2).
Proof.
  unfold get_pr, try_catch, bind, ret. cbn [perform].
  destruct (getPullRequest H owner repo n token s) as [[pr|e] s']; reflexivity.
Qed.

Lemma post_comment_on_pr_eq owner repo n text token (s : state H) :
  post_comment_on_pr H owner repo n text token s =
  let p := perform H (post_comment owner repo n text token) s in
  (Normal (reply (and_then p.1 comment_summary)), p.2).
Proof.
  unfold post_comment_on_pr, try_catch, bind, ret, lift. cbn [perform].
  destruct (postCommentOnPR H owner repo n text token s) as [[comment|e] s'];
    [|reflexivity].
  cbn [fst snd and_then]. unfold comment_summary, and_then.
  repeat match goal with
         | |- context [get ?v ?k] => destruct (get v k)
         end; reflexivity.
Qed.

Lemma analyze_and_comment_pr_eq owner repo n token (s : state H) :
  analyze_and_comment_pr H owner repo n token s =
  let p := perform H (get_pull owner repo n token) s in
  match p.1 with
  | Throw e => (Normal (error_result e), p.2)
  | Normal pr =>
      match prepare (TimeClip (Int (clock H (the_world p.2)))) pr with
      | Throw e => (Normal (error_result e), p.2)
      | Normal (report, fields) =>
          let q := perform H (post_comment owner repo n report token) p.2 in
          (Normal (reply (and_then q.1 (analysis_summary fields))), q.2)
      end
  end.
Proof.
  unfold analyze_and_comment_pr, try_catch, bind, ret, lift, Date_now. cbn [perform].
  destruct (getPullRequest H owner repo n token s) as [[pr|e] s1]; [|reflexivity].
  cbn [fst snd]. unfold prepare, and_then.
  repeat match goal with
         | |- context [get ?v ?k] => destruct (get v k)
         end; try reflexivity.
  destruct (call_toUpperCase _ _); [|reflexivity].
  cbn zeta.
  match goal with
  | |- context [postCommentOnPR H owner repo n ?r token s1] =>
      destruct (postCommentOnPR H owner repo n r token s1) as [[comment|e] s2]
  end; [|reflexivity].
  cbn [fst snd reply and_then analysis_summary]. unfold and_then.
  repeat match goal with
         | |- context [get ?v ?k] => destruct (get v k)
         end; reflexivity.
Qed.


(** ** Runs from an empty log *)

Lemma perform_trace (c : rest_call) (w : world H) :
  trace H (perform H c) w = [(request_of c, (fetch H (request_of c) w).1)].
Proof. unfold trace, run. rewrite perform_eq. reflexivity. Qed.

Lemma perform_outcome (c : rest_call) (w : world H) :
  outcome H (perform H c) w = settle (request_of c) (fetch H (request_of c) w).1.
Proof. unfold outcome, run. rewrite perform_eq. reflexivity. Qed.

Lemma not_ok (r : response) : 400 <= status r -> ok r = false.
Proof. intros Hr. unfold ok. apply andb_false_iff. right. lia. Qed.

Lemma settle_not_ok (rq : request) (r : response) :
  400 <= status r -> settle rq (resolves r) = Throw (failure rq r).
Proof. intros Hr. cbn. now rewrite (not_ok r Hr). Qed.

Lemma settle_normal (rq : request) (x : fetch_result) (j : json) :
  settle rq x = Normal j -> exists r, x = resolves r /\ ok r = true.
Proof.
  destruct x as [r|e]; cbn; [|discriminate].
  destruct (ok r) eqn:Hok; [|discriminate].
  intros _. now exists r.
Qed.

(** No handler throws: each run ends with a result. *)
Lemma handle_returns (c : tool_call) (s : state H) :
  exists result, (handle H c s).1 = Normal result.
Proof.
  destruct c; cbn [handle].
  - rewrite get_prs_of_repo_eq. eauto.
  - rewrite get_pr_eq. eauto.
  - rewrite analyze_and_comment_pr_eq. cbn zeta.
    destruct (perform H _ s) as [[pr|e] s1]; cbn [fst snd]; [|eauto].
    destruct (prepare _ pr) as [[report fields]|e]; cbn; eauto.
  - rewrite post_comment_on_pr_eq. eauto.
Qed.

(** The three ways a run of [analyze_and_comment_pr] goes: the pull request
    is not obtained; it is, and a step before the post throws; the comment
    is posted. *)
Lemma analyze_and_comment_pr_run owner repo n token (w : world H) :
  let rq1 := pull_request owner repo n token in
  let x1 := fetch H rq1 w in
  let s1 := {| the_world := x1.2; exchanges := [(rq1, x1.1)] |} in
  (exists e, settle rq1 x1.1 = Throw e
     /\ run H (analyze_and_comment_pr H owner repo n token) w
        = (Normal (error_result e), s1))
  \/ (exists pr e, settle rq1 x1.1 = Normal pr
     /\ run H (analyze_and_comment_pr H owner repo n token) w
        = (Normal (error_result e), s1))
  \/ (exists pr report fields, settle rq1 x1.1 = Normal pr
     /\ prepare (TimeClip (Int (clock H x1.2))) pr = Normal (report, fields)
     /\ let rq2 := comment_request owner repo n report token in
        let x2 := fetch H rq2 x1.2 in
        run H (analyze_and_comment_pr H owner repo n token) w
        = (Normal (reply (and_then (settle rq2 x2.1) (analysis_summary fields))),
           {| the_world := x2.2; exchanges := [(rq1, x1.1); (rq2, x2.1)] |})).
Proof.
  intros rq1 x1 s1. unfold run.
  rewrite analyze_and_comment_pr_eq. cbn zeta.
  rewrite (perform_eq (get_pull owner repo n token)). cbn zeta.
  cbn [fst snd the_world request_of]. fold rq1. fold x1.
  change (logged {| the_world := w; exchanges := [] |} rq1 x1) with s1.
  destruct (settle rq1 x1.1) as [pr|e]; [|left; eauto].
  right. cbn [the_world s1].
  destruct (prepare _ pr) as [[report fields]|e] eqn:Hprep; [right|left; eauto].
  exists pr, report, fields. split; [reflexivity|]. split; [exact Hprep|].
  rewrite perform_eq. reflexivity.
Qed.

(** A response of the run with a status of 400 or more ends the handler
    in its [catch] block, with the failure of that response. *)
Lemma upstream_error_outcome (c : tool_call) (w : world H)
    (rq : request) (r : response) :
  In (rq, resolves r) (trace H (handle H c) w) ->
  400 <= status r ->
  outcome H (handle H c) w = Normal (error_result (failure rq r)).
Proof.
  intros Hin Hr.
  pose proof (settle_not_ok rq r Hr) as Hset.
  unfold trace, outcome in *.
  destruct c as [owner repo token|owner repo n token|owner repo n token
                |owner repo n text token]; cbn [handle] in *.
  - unfold run in *. rewrite get_prs_of_repo_eq in *. rewrite perform_eq in *.
    cbn in Hin |- *. destruct Hin as [[= <- Hx]|[]]. now rewrite Hx, Hset.
  - unfold run in *. rewrite get_pr_eq in *. rewrite perform_eq in *.
    cbn in Hin |- *. destruct Hin as [[= <- Hx]|[]]. now rewrite Hx, Hset.
  - destruct (analyze_and_comment_pr_run owner repo n token w)
      as [(e & Hfirst & Hrun)|[(pr & e & Hfirst & Hrun)
          |(pr & report & fields & Hfirst & _ & Hrun)]];
      cbn zeta in Hrun; rewrite Hrun in *; cbn [fst snd exchanges] in *.
    + destruct Hin as [[= <- Hx]|[]].
      rewrite Hx, Hset in Hfirst. now injection Hfirst as <-.
    + destruct Hin as [[= <- Hx]|[]].
      rewrite Hx, Hset in Hfirst. discriminate.
    + destruct Hin as [[= <- Hx]|[[= <- Hx]|[]]].
      * rewrite Hx, Hset in Hfirst. discriminate.
      * now rewrite Hx, Hset.
  - unfold run in *. rewrite post_comment_on_pr_eq in *. rewrite perform_eq in *.
    cbn in Hin |- *. destruct Hin as [[= <- Hx]|[]]. now rewrite Hx, Hset.
Qed.

(** Claim C1. For each of the four tools: when an upstream response of the
    run has a status of 400 or more, the handler does not throw; it returns
    one result, flagged [isError: true], whose single text payload is
    [Error: ], the prefix of the client function that made the call, the
    numeric status, a space and the status text. *)
Theorem upstream_error_is_reported (c : tool_call) (w : world H)
    (rq : request) (r : response) :
  In (rq, resolves r) (trace H (handle H c) w) ->
  400 <= status r ->
  exists prefix,
    (prefix = "GitHub API error: " \/ prefix = "Failed to post comment: ")
    /\ outcome H (handle H c) w
       = Normal
           {| content :=
                [{| type := "text";
                    text := "Error: " +:+ prefix +:+ Number_toString (Int (status r))
                            +:+ " " +:+ statusText r |}];
              isError := Some true |}.
Proof.
  intros Hin Hr. rewrite (upstream_error_outcome c w rq r Hin Hr).
  unfold error_result, failure, error_text.
  destruct (String.eqb (method rq) "POST");
    [exists "Failed to post comment: " | exists "GitHub API error: "];
    (split; [auto | reflexivity]).
Qed.

(** Fetching the pull request fails on a response that is not [ok] and on
    a rejected call. *)
Lemma getPullRequest_fails owner repo n token (w : world H) :
  let x := (fetch H (pull_request owner repo n token) w).1 in
  (forall r, x = resolves r -> ok r = false ->
     outcome H (getPullRequest H owner repo n token) w
     = Throw (failure (pull_request owner repo n token) r))
  /\ (forall e, x = rejects e ->
     outcome H (getPullRequest H owner repo n token) w = Throw e).
Proof.
  cbn zeta.
  change (getPullRequest H owner repo n token)
    with (perform H (get_pull owner repo n token)).
  rewrite perform_outcome. cbn [request_of].
  split; [intros r -> Hok | intros e ->]; cbn; [now rewrite Hok | reflexivity].
Qed.

(** Claim C9. When fetching the pull request fails ([getPullRequest]
    throws: response not [ok], rejected call, body that is not JSON),
    [analyze_and_comment_pr] returns the error-flagged result of that
    failure, and its only exchange is the [GET]: no comment is posted. *)
Theorem no_comment_without_pull_request owner repo n token (w : world H) (e : thrown) :
  outcome H (getPullRequest H owner repo n token) w = Throw e ->
  outcome H (analyze_and_comment_pr H owner repo n token) w = Normal (error_result e)
  /\ isError (error_result e) = Some true
  /\ trace H (analyze_and_comment_pr H owner repo n token) w
     = trace H (getPullRequest H owner repo n token) w
  /\ List.filter is_post (trace H (analyze_and_comment_pr H owner repo n token) w) = [].
Proof.
  change (getPullRequest H owner repo n token)
    with (perform H (get_pull owner repo n token)).
  rewrite perform_outcome, perform_trace. cbn [request_of]. intros Hfail.
  unfold outcome, trace.
  destruct (analyze_and_comment_pr_run owner repo n token w)
    as [(e' & Hfirst & Hrun)|[(pr & e' & Hfirst & Hrun)
        |(pr & report & fields & Hfirst & _ & Hrun)]];
    cbn zeta in Hrun; rewrite Hrun; rewrite Hfail in Hfirst;
    try discriminate.
  injection Hfirst as <-. cbn. repeat split.
Qed.

(** Claim C4. [get_prs_of_repo] issues one call, [GET] on
    [{base}/repos/{owner}/{repo}/pulls]; when the response is [ok] and its
    body parses to [prs], the result is a single text payload holding
    [JSON.stringify(prs, null, 2)], without [isError]. *)
Theorem get_prs_of_repo_lists owner repo token (w : world H) (r : response) (prs : json) :
  (fetch H (list_request owner repo token) w).1 = resolves r ->
  ok r = true ->
  json_body r = Normal prs ->
  map (fun x => (method x.1, url x.1)) (trace H (get_prs_of_repo H owner repo token) w)
    = [("GET", GITHUB_URL +:+ "/repos/" +:+ owner +:+ "/" +:+ repo +:+ "/pulls")]
  /\ outcome H (get_prs_of_repo H owner repo token) w
     = Normal {| content := [{| type := "text"; text := JSON_stringify prs 2 |}];
                 isError := None |}.
Proof.
  intros Hx Hok Hbody. unfold trace, outcome, run.
  rewrite get_prs_of_repo_eq, perform_eq. cbn zeta. cbn [fst snd request_of the_world].
  rewrite Hx. cbn. rewrite Hok, Hbody. split; reflexivity.
Qed.


(** The headers every request starts from. *)
Lemma base_headers_lookup :
  base_headers !! "Accept" = Some "application/vnd.github.v3+json"
  /\ base_headers !! "User-Agent" = Some "GitHub-API-Client"
  /\ base_headers !! "Authorization" = None.
Proof. repeat split. Qed.

Lemma authorize_other (token : option string) (hs : gmap string string) (k : string) :
  k <> "Authorization" -> authorize token hs !! k = hs !! k.
Proof.
  intros Hk. unfold authorize. destruct token as [t|]; [|reflexivity].
  destruct (is_empty t); [reflexivity|]. now rewrite lookup_insert_ne.
Qed.

Lemma authorize_authorization (token : option string) (hs : gmap string string) :
  hs !! "Authorization" = None ->
  authorize token hs !! "Authorization" =
  match token with
  | Some t => if is_empty t then None else Some ("token " +:+ t)
  | None => None
  end.
Proof.
  intros Hhs. unfold authorize. destruct token as [t|]; [|exact Hhs].
  destruct (is_empty t); [exact Hhs|]. now rewrite lookup_insert_eq.
Qed.

Lemma request_headers (c : rest_call) :
  headers (request_of c) !! "Accept" = Some "application/vnd.github.v3+json"
  /\ headers (request_of c) !! "User-Agent" = Some "GitHub-API-Client"
  /\ headers (request_of c) !! "Authorization" =
     match token_of c with
     | Some t => if is_empty t then None else Some ("token " +:+ t)
     | None => None
     end.
Proof.
  destruct c; cbn [request_of headers list_request pull_request comment_request token_of];
    rewrite !authorize_other by discriminate;
    rewrite authorize_authorization by reflexivity; repeat split.
Qed.

(** Claim C5, amended. Each of the three client functions makes one call,
    with the fixed [Accept] and [User-Agent] headers; its [Authorization]
    header is [token {token}] when a non-empty token is passed and is
    absent otherwise (no token, or the empty string). And
    [post_comment_on_pr] with body [hello] and no token makes exactly one
    call: a [POST] on the comments endpoint with the JSON body
    [{"body":"hello"}] and no [Authorization] header. *)
Theorem client_headers (c : rest_call) (w : world H) (owner repo : string) (n : number) :
  (exists rq x,
     trace H (perform H c) w = [(rq, x)]
     /\ headers rq !! "Accept" = Some "application/vnd.github.v3+json"
     /\ headers rq !! "User-Agent" = Some "GitHub-API-Client"
     /\ headers rq !! "Authorization" =
        match token_of c with
        | Some t => if is_empty t then None else Some ("token " +:+ t)
        | None => None
        end
     /\ (is_Some (headers rq !! "Authorization")
         <-> exists t, token_of c = Some t /\ is_empty t = false))
  /\ (exists rq x,
     trace H (post_comment_on_pr H owner repo n "hello" None) w = [(rq, x)]
     /\ method rq = "POST"
     /\ url rq = GITHUB_URL +:+ "/repos/" +:+ owner +:+ "/" +:+ repo +:+ "/issues/"
                 +:+ Number_toString n +:+ "/comments"
     /\ body rq = Some ("{" +:+ double_quote +:+ "body" +:+ double_quote +:+ ":"
                        +:+ double_quote +:+ "hello" +:+ double_quote +:+ "}")
     /\ headers rq !! "Authorization" = None).
Proof.
  split.
  - exists (request_of c), (fetch H (request_of c) w).1.
    destruct (request_headers c) as (Ha & Hu & Hauth).
    split; [apply perform_trace|]. repeat split; try assumption.
    + rewrite Hauth. destruct (token_of c) as [t|]; [|intros [? [=]]].
      destruct (is_empty t) eqn:Ht; [intros [? [=]] | eauto].
    + intros (t & Ht & Hne). rewrite Hauth, Ht, Hne. eauto.
  - exists (comment_request owner repo n "hello" None),
      (fetch H (comment_request owner repo n "hello" None) w).1.
    split; [|repeat split].
    unfold trace, run. rewrite post_comment_on_pr_eq, perform_eq. reflexivity.
Qed.

(** The claim as the interface description words it: the header is there
    exactly when a token argument is passed. *)
Definition authorization_iff_token_supplied (c : rest_call) (w : world H) : Prop :=
  forall rq x, In (rq, x) (trace H (perform H c) w) ->
    (is_Some (headers rq !! "Authorization") <-> is_Some (token_of c)).


End Handlers.

(** Claim C5 as stated fails: with the empty string passed as token, a
    token argument is supplied and the request has no [Authorization]
    header. *)
Lemma authorization_iff_token_supplied_fails :
  ~ authorization_iff_token_supplied (stub healthy new_year)
      (list_pulls "octocat" "hello-world" (Some EmptyString)) tt.
Proof.
  intros Hclaim.
  destruct (Hclaim (list_request "octocat" "hello-world" (Some EmptyString))
              (healthy (list_request "octocat" "hello-world" (Some EmptyString))))
    as [_ Hback].
  - left. reflexivity.
  - destruct Hback as [v Hv]; [eexists; reflexivity|]. discriminate Hv.
Qed.

(** ** The age of a pull request *)




(** Every time value is in range. *)
Lemma TimeClip_range (x : number) (t : Z) : TimeClip x = Some t -> Z.abs t <= max_time.
Proof.
  destruct x as [| |m e]; cbn; try discriminate.
  destruct (0 <=? e) eqn:He.
  - destruct (max_time <? Z.abs m * 10 ^ e) eqn:Hex; [discriminate|].
    intros [= <-]. apply Z.ltb_ge in Hex. apply Z.leb_le in He.
    rewrite Z.abs_mul, (Z.abs_eq (10 ^ e)); [exact Hex|]. now apply Z.pow_nonneg.
  - destruct (max_time * 10 ^ (- e) <? Z.abs m) eqn:Hex; [discriminate|].
    intros [= <-]. apply Z.ltb_ge in Hex. apply Z.leb_gt in He.
    assert (0 < 10 ^ (- e)) as Hp by (apply Z.pow_pos_nonneg; lia).
    rewrite <- Z.quot_abs by lia. rewrite (Z.abs_eq (10 ^ (- e))) by lia.
    rewrite Z.quot_div_nonneg by lia.
    apply Z.div_le_upper_bound; lia.
Qed.



(** ** The author of a pull request *)


(** ** The theorems at sample inputs *)

Definition always_missing : host := stub missing_upstream new_year.
Definition read_only : host := stub read_only_upstream (new_year + three_days_two_hours).
Definition working : host := stub healthy (new_year + three_days_two_hours).

Lemma upstream_error_is_reported_witness :
  exists prefix,
    (prefix = "GitHub API error: " \/ prefix = "Failed to post comment: ")
    /\ outcome always_missing
         (handle always_missing (call_get_pr "octocat" "hello-world" (Int 42) None)) tt
       = Normal
           {| content :=
                [{| type := "text";
                    text := "Error: " +:+ prefix +:+ Number_toString (Int 404)
                            +:+ " " +:+ "Not Found" |}];
              isError := Some true |}.
Proof.
  apply (upstream_error_is_reported always_missing
           (call_get_pr "octocat" "hello-world" (Int 42) None) tt
           (pull_request "octocat" "hello-world" (Int 42) None) not_found).
  - left. reflexivity.
  - vm_compute. discriminate.
Defined.

Example missing_pull_request_is_reported :
  outcome always_missing
    (handle always_missing (call_get_pr "octocat" "hello-world" (Int 42) None)) tt
  = Normal {| content := [{| type := "text";
                             text := "Error: GitHub API error: 404 Not Found" |}];
              isError := Some true |}.
Proof. reflexivity. Qed.

Example refused_comment_is_reported :
  outcome read_only
    (analyze_and_comment_pr read_only "octocat" "hello-world" (Int 42) None) tt
  = Normal {| content := [{| type := "text";
                             text := "Error: Failed to post comment: 403 Forbidden" |}];
              isError := Some true |}.
Proof. reflexivity. Qed.

Lemma no_comment_without_pull_request_witness :
  outcome always_missing
    (analyze_and_comment_pr always_missing "octocat" "hello-world" (Int 42) None) tt
  = Normal {| content := [{| type := "text";
                             text := "Error: GitHub API error: 404 Not Found" |}];
              isError := Some true |}
  /\ List.filter is_post
       (trace always_missing
          (analyze_and_comment_pr always_missing "octocat" "hello-world" (Int 42) None) tt)
     = [].
Proof.
  destruct (no_comment_without_pull_request always_missing
              "octocat" "hello-world" (Int 42) None tt
              (failure (pull_request "octocat" "hello-world" (Int 42) None) not_found))
    as (Hout & _ & _ & Hposts).
  - reflexivity.
  - split; [exact Hout | exact Hposts].
Defined.

Lemma get_prs_of_repo_lists_witness :
  map (fun x => (method x.1, url x.1))
    (trace working (get_prs_of_repo working "octocat" "hello-world" None) tt)
  = [("GET", "https://api.github.com/repos/octocat/hello-world/pulls")]
  /\ outcome working (get_prs_of_repo working "octocat" "hello-world" None) tt
     = Normal (text_result (JSON_stringify (JArray [sample_pr]) 2)).
Proof.
  apply (get_prs_of_repo_lists working "octocat" "hello-world" None tt
           {| status := 200; statusText := "OK"; json_body := Normal (JArray [sample_pr]) |}
           (JArray [sample_pr])); reflexivity.
Defined.


(** The report posted for the sample pull request, 3 days and 2 hours
    after its creation: 3 days old, by [bob]. *)
Example analysis_of_sample_pr :
  map (fun x => body x.1)
    (List.filter is_post
       (trace working
          (analyze_and_comment_pr working "octocat" "hello-world" (Int 42) None) tt))
  = [Some (comment_body
       (analysisReport (Some (JNumber (Int 42))) (Some (JString "Fix the build"))
          (Some (JString "open")) (Some (JString "bob"))
          "1704067200000" "1704067200000"
          (Some (JString "https://github.com/octocat/hello-world/pull/42"))
          "OPEN" (Int 3)))].
Proof. reflexivity. Qed.

End ServerSpec.

(** * The launcher: further properties *)

Module LauncherMore.

Import JS JSFacts Launcher Samples LauncherSpec.
Local Open Scope Z_scope.
Local Arguments String.append !_ _ / : simpl nomatch.

(** A variable that is not set, or set to the empty string. *)
Definition unset_or_empty (env : gmap string string) (name : string) : Prop :=
  env !! name = None \/ env !! name = Some EmptyString.

(** The conditions under which the check of the launcher fails. *)
Definition rejected (env : gmap string string) : Prop :=
  unset_or_empty env "PR_OWNER" \/ unset_or_empty env "PR_REPO"
  \/ unset_or_empty env "GITHUB_TOKEN"
  \/ prNumber env = NaN \/ exists e, prNumber env = Finite 0 e.

Lemma falsy_variable (env : gmap string string) (name : string) :
  truthy (env_value env name) = false <-> unset_or_empty env name.
Proof.
  unfold env_value, unset_or_empty.
  destruct (env !! name) as [[|c v]|]; cbn.
  - split; auto.
  - split; [discriminate | intros [Hv|Hv]; discriminate Hv].
  - split; auto.
Qed.

Lemma falsy_number (n : number) :
  Number_truthy n = false <-> n = NaN \/ exists e, n = Finite 0 e.
Proof.
  destruct n as [|s|m e]; cbn.
  - split; auto.
  - split; [discriminate|]. intros [|[e ?]]; discriminate.
  - rewrite negb_false_iff, Z.eqb_eq. split.
    + intros ->. right. eauto.
    + intros [|[e' [= -> _]]]; [discriminate|reflexivity].
Qed.

Lemma missing_iff_rejected (env : gmap string string) :
  missing env = true <-> rejected env.
Proof.
  unfold missing, rejected.
  rewrite !orb_true_iff, !negb_true_iff.
  unfold prOwner, prRepo, token. rewrite !falsy_variable, falsy_number.
  tauto.
Qed.

(** The launcher exits with status 1 exactly when one of [PR_OWNER],
    [PR_REPO], [GITHUB_TOKEN] is unset or empty, or [PR_NUMBER] parses to
    [NaN] or to zero; in every other case it does not exit and spawns
    [node ./dist/github-mcp.js] once, with piped input and output. *)
Theorem exits_exactly_when_rejected (env : gmap string string) :
  (exit_status (run env) = Some 1 <-> rejected env)
  /\ (List.filter is_spawn (run env)
        = [spawn "node" ["./dist/github-mcp.js"] ["pipe"; "pipe"; "inherit"]]
      <-> ~ rejected env)
  /\ (exit_status (run env) = None <-> ~ rejected env).
Proof.
  rewrite <- missing_iff_rejected. unfold run.
  destruct (missing env); cbn; repeat split; try discriminate; try congruence; auto.
Qed.

(** What the launcher prints. *)
Definition is_console (e : event) : bool :=
  match e with
  | console_log _ | console_error _ => true
  | _ => false
  end.

Lemma env_value_other (env : gmap string string) (name other v : string) :
  other <> name -> env_value (<[other := v]> env) name = env_value env name.
Proof. intros Hne. unfold env_value. now rewrite lookup_insert_ne. Qed.

Lemma env_value_token (env : gmap string string) (tok : string) :
  is_empty tok = false ->
  truthy (token (<["GITHUB_TOKEN" := tok]> env)) = true.
Proof.
  intros Htok. unfold token, env_value. rewrite lookup_insert_eq. cbn. now rewrite Htok.
Qed.

(** What the launcher prints at start does not depend on the token: two
    environments that differ only in a non-empty [GITHUB_TOKEN] give the
    same console output. *)
Theorem console_is_independent_of_the_token (env : gmap string string) (tok tok' : string) :
  is_empty tok = false ->
  is_empty tok' = false ->
  List.filter is_console (run (<["GITHUB_TOKEN" := tok]> env))
  = List.filter is_console (run (<["GITHUB_TOKEN" := tok']> env)).
Proof.
  intros Htok Htok'. unfold run, missing.
  rewrite !env_value_token by assumption.
  unfold prOwner, prRepo, prNumber. rewrite !env_value_other by discriminate.
  destruct (negb (truthy (env_value env "PR_OWNER")) || _ || _ || negb true);
    reflexivity.
Qed.

Lemma console_is_independent_of_the_token_witness :
  List.filter is_console (run (<["GITHUB_TOKEN" := "s3cret"]> sample_env))
  = List.filter is_console (run (<["GITHUB_TOKEN" := "another"]> sample_env)).
Proof.
  apply (console_is_independent_of_the_token sample_env "s3cret" "another"); reflexivity.
Defined.

End LauncherMore.

(** * The server: further properties *)

Module ServerMore.

Import JS JSFacts Server Samples ServerSpec.
Local Open Scope Z_scope.
Local Arguments String.append !_ _ / : simpl nomatch.

Section Tools.

Variable H : host.

(** The client call a handler starts with. *)
Definition first_call (c : tool_call) : rest_call :=
  match c with
  | call_get_prs_of_repo owner repo token => list_pulls owner repo token
  | call_get_pr owner repo n token => get_pull owner repo n token
  | call_analyze_and_comment_pr owner repo n token => get_pull owner repo n token
  | call_post_comment_on_pr owner repo n text token => post_comment owner repo n text token
  end.

(** What a handler makes of the value its first call gives. *)
Definition after_first_call (c : tool_call) : json -> completion CallToolResult :=
  match c with
  | call_post_comment_on_pr _ _ _ _ _ => comment_summary
  | _ => as_text
  end.

(** The state after the first call of a run. *)
Definition first_state (rq : request) (x : fetch_result * world H) : state H :=
  {| the_world := x.2; exchanges := [(rq, x.1)] |}.

(** The run of a handler with one call. *)
Lemma single_call_run (c : tool_call) (w : world H) :
  (forall owner repo n token, c <> call_analyze_and_comment_pr owner repo n token) ->
  let rq := request_of (first_call c) in
  let x := fetch H rq w in
  run H (handle H c) w
  = (Normal (reply (and_then (settle rq x.1) (after_first_call c))), first_state rq x).
Proof.
  intros Hc. unfold run.
  destruct c as [owner repo token|owner repo n token|owner repo n token
                |owner repo n text token]; cbn [handle first_call after_first_call].
  - rewrite get_prs_of_repo_eq, perform_eq. reflexivity.
  - rewrite get_pr_eq, perform_eq. reflexivity.
  - now destruct (Hc owner repo n token).
  - rewrite post_comment_on_pr_eq, perform_eq. reflexivity.
Qed.

(** The run of [analyze_and_comment_pr], call by call. *)
Lemma analyze_run owner repo n token (w : world H) :
  let rq1 := pull_request owner repo n token in
  let x1 := fetch H rq1 w in
  run H (analyze_and_comment_pr H owner repo n token) w
  = match settle rq1 x1.1 with
    | Throw e => (Normal (error_result e), first_state rq1 x1)
    | Normal pr =>
        match prepare H (TimeClip (Int (clock H x1.2))) pr with
        | Throw e => (Normal (error_result e), first_state rq1 x1)
        | Normal (report, fields) =>
            let rq2 := comment_request owner repo n report token in
            let x2 := fetch H rq2 x1.2 in
            (Normal (reply (and_then (settle rq2 x2.1) (analysis_summary fields))),
             {| the_world := x2.2; exchanges := [(rq1, x1.1); (rq2, x2.1)] |})
        end
    end.
Proof.
  intros rq1 x1. unfold run.
  rewrite analyze_and_comment_pr_eq. cbn zeta.
  rewrite (perform_eq H (get_pull owner repo n token)). cbn zeta.
  cbn [fst snd the_world request_of]. fold rq1. fold x1.
  change (logged H {| the_world := w; exchanges := [] |} rq1 x1) with (first_state rq1 x1).
  destruct (settle rq1 x1.1) as [pr|e]; [|reflexivity].
  cbn [the_world first_state].
  destruct (prepare H _ pr) as [[report fields]|e]; [|reflexivity].
  rewrite perform_eq. reflexivity.
Qed.


(** ** The shape of every result *)

Definition well_formed (result : CallToolResult) : Prop :=
  exists t flag,
    result = {| content := [{| type := "text"; text := t |}]; isError := flag |}
    /\ (flag = None \/ (flag = Some true /\ exists e, t = "Error: " +:+ error_text e)).

Lemma error_result_well_formed (e : thrown) : well_formed (error_result e).
Proof. do 2 eexists. split; [reflexivity|]. right. eauto. Qed.

Lemma text_result_well_formed (t : string) : well_formed (text_result t).
Proof. do 2 eexists. split; [reflexivity|]. now left. Qed.

Lemma reply_well_formed {A} (o : completion A) (k : A -> completion CallToolResult) :
  (forall a r, k a = Normal r -> well_formed r) -> well_formed (reply (and_then o k)).
Proof.
  intros Hk. destruct o as [a|e]; cbn; [|apply error_result_well_formed].
  destruct (k a) as [r|e] eqn:Hka; cbn; [eauto | apply error_result_well_formed].
Qed.

Lemma as_text_well_formed (j : json) (r : CallToolResult) :
  as_text j = Normal r -> well_formed r.
Proof. intros [= <-]. apply text_result_well_formed. Qed.

Lemma comment_summary_well_formed (j : json) (r : CallToolResult) :
  comment_summary j = Normal r -> well_formed r.
Proof.
  unfold comment_summary, and_then.
  repeat match goal with
         | |- context [get ?v ?k] => destruct (get v k)
         end; intros [= <-]. apply text_result_well_formed.
Qed.

Lemma analysis_summary_well_formed fields (j : json) (r : CallToolResult) :
  analysis_summary fields j = Normal r -> well_formed r.
Proof.
  destruct fields as [[number title] state]. unfold analysis_summary, and_then.
  repeat match goal with
         | |- context [get ?v ?k] => destruct (get v k)
         end; intros [= <-]. apply text_result_well_formed.
Qed.

Lemma not_analyze_cases (c : tool_call) :
  (forall owner repo n token, c <> call_analyze_and_comment_pr owner repo n token)
  \/ exists owner repo n token, c = call_analyze_and_comment_pr owner repo n token.
Proof. destruct c; [left|left|right|left]; try discriminate; eauto. Qed.

(** Whatever the upstream does, a tool call ends with a result, never
    with an exception: one content item of type [text], and either no
    [isError] or [isError: true] with a text that starts with [Error: ]. *)
Theorem every_result_is_one_text_payload (c : tool_call) (w : world H) :
  exists result,
    outcome H (handle H c) w = Normal result
    /\ well_formed result.
Proof.
  unfold outcome.
  destruct (not_analyze_cases c) as [Hc|(owner & repo & n & token & ->)].
  - rewrite (single_call_run c w Hc). cbn [fst]. eexists. split; [reflexivity|].
    apply reply_well_formed. destruct c; cbn [after_first_call];
      eauto using as_text_well_formed, comment_summary_well_formed.
  - cbn [handle]. rewrite analyze_run. cbn zeta.
    destruct (settle _ _) as [pr|e]; cbn [fst];
      [|eauto using error_result_well_formed].
    destruct (prepare H _ pr) as [[report fields]|e]; cbn [fst];
      [|eauto using error_result_well_formed].
    eexists. split; [reflexivity|].
    apply reply_well_formed. eauto using analysis_summary_well_formed.
Qed.

(** ** A first call that fails *)

(** A failure of the first call ends the handler in its [catch] block,
    after that one exchange. *)
Lemma first_call_fails (c : tool_call) (w : world H) (e : thrown) :
  let rq := request_of (first_call c) in
  settle rq (fetch H rq w).1 = Throw e ->
  run H (handle H c) w = (Normal (error_result e), first_state rq (fetch H rq w)).
Proof.
  intros rq Hfail.
  destruct (not_analyze_cases c) as [Hc|(owner & repo & n & token & ->)].
  - rewrite (single_call_run c w Hc). cbn zeta. fold rq. now rewrite Hfail.
  - cbn [handle]. rewrite analyze_run. cbn zeta.
    cbn [first_call request_of] in rq, Hfail. fold rq. now rewrite Hfail.
Qed.

(** When [fetch] rejects on the first call of a tool (no network), the
    result is error-flagged with the message of the rejection, and no
    other call is made. *)
Theorem rejected_call_is_reported (c : tool_call) (w : world H) (e : thrown) :
  (fetch H (request_of (first_call c)) w).1 = rejects e ->
  outcome H (handle H c) w
  = Normal {| content := [{| type := "text"; text := "Error: " +:+ error_text e |}];
              isError := Some true |}
  /\ trace H (handle H c) w = [(request_of (first_call c), rejects e)].
Proof.
  intros Hx. unfold outcome, trace.
  rewrite (first_call_fails c w e) by (cbn zeta; now rewrite Hx).
  cbn. now rewrite Hx.
Qed.

(** When the first response is [ok] but [response.json()] throws, the
    result is error-flagged with the message of that exception, and no
    other call is made. *)
Theorem unparsable_body_is_reported (c : tool_call) (w : world H)
    (r : response) (e : thrown) :
  (fetch H (request_of (first_call c)) w).1 = resolves r ->
  ok r = true ->
  json_body r = Throw e ->
  outcome H (handle H c) w
  = Normal {| content := [{| type := "text"; text := "Error: " +:+ error_text e |}];
              isError := Some true |}
  /\ trace H (handle H c) w = [(request_of (first_call c), resolves r)].
Proof.
  intros Hx Hok Hbody. unfold outcome, trace.
  rewrite (first_call_fails c w e) by (cbn zeta; rewrite Hx; cbn; now rewrite Hok).
  cbn. now rewrite Hx.
Qed.

(** A response with any status outside 200 to 299 (304 or 199 as well as
    404) is reported like an error status, and it is the last exchange of
    the run: nothing is retried or attempted after it. *)
Theorem status_outside_2xx_is_reported (c : tool_call) (w : world H)
    (rq : request) (r : response) :
  In (rq, resolves r) (trace H (handle H c) w) ->
  status r < 200 \/ 299 < status r ->
  (exists prefix,
     (prefix = "GitHub API error: " \/ prefix = "Failed to post comment: ")
     /\ outcome H (handle H c) w
        = Normal
            {| content :=
                 [{| type := "text";
                     text := "Error: " +:+ prefix +:+ Number_toString (Int (status r))
                             +:+ " " +:+ statusText r |}];
               isError := Some true |})
  /\ last (trace H (handle H c) w) = Some (rq, resolves r).
Proof.
  intros Hin Hstatus.
  enough (outcome H (handle H c) w = Normal (error_result (failure rq r))
          /\ last (trace H (handle H c) w) = Some (rq, resolves r)) as [Hout Hlast].
  { split; [|exact Hlast]. rewrite Hout. unfold error_result, failure, error_text.
    destruct (String.eqb (method rq) "POST");
      [exists "Failed to post comment: " | exists "GitHub API error: "];
      (split; [auto | reflexivity]). }
  assert (ok r = false) as Hok.
  { unfold ok. apply andb_false_iff. destruct Hstatus; [left|right]; lia. }
  assert (settle rq (resolves r) = Throw (failure rq r)) as Hset
    by (cbn; now rewrite Hok).
  unfold outcome, trace in *.
  destruct (not_analyze_cases c) as [Hc|(owner & repo & n & token & ->)].
  - rewrite (single_call_run c w Hc) in *. cbn [fst snd first_state exchanges] in *.
    destruct Hin as [[= <- Hx]|[]]. rewrite Hx, Hset. split; reflexivity.
  - cbn [handle] in *. rewrite analyze_run in *. cbn zeta in *.
    destruct (settle _ (fetch H (pull_request owner repo n token) w).1)
      as [pr|e] eqn:Hfirst.
    + apply settle_normal in Hfirst as (r1 & Hx1 & Hok1).
      destruct (prepare H _ pr) as [[report fields]|e];
        cbn [fst snd first_state exchanges] in *.
      * destruct Hin as [[= _ Hx]|[[= <- Hx]|[]]]; [congruence|].
        rewrite Hx, Hset. split; reflexivity.
      * destruct Hin as [[= _ Hx]|[]]. congruence.
    + cbn [fst snd first_state exchanges] in *.
      destruct Hin as [[= <- Hx]|[]]. rewrite Hx, Hset in Hfirst.
      injection Hfirst as <-. rewrite Hx. split; reflexivity.
Qed.


(** ** [get_pr] *)

(** [get_pr] makes one [GET] on [{base}/repos/{owner}/{repo}/pulls/{n}];
    on an [ok] response with a JSON body it returns that body, serialised
    with an indentation of 2, as a single text payload without [isError]. *)
Theorem get_pr_returns_the_pull_request owner repo n token (w : world H)
    (r : response) (pr : json) :
  (fetch H (pull_request owner repo n token) w).1 = resolves r ->
  ok r = true ->
  json_body r = Normal pr ->
  map (fun x => (method x.1, url x.1)) (trace H (get_pr H owner repo n token) w)
    = [("GET", GITHUB_URL +:+ "/repos/" +:+ owner +:+ "/" +:+ repo +:+ "/pulls/"
               +:+ Number_toString n)]
  /\ outcome H (get_pr H owner repo n token) w
     = Normal {| content := [{| type := "text"; text := JSON_stringify pr 2 |}];
                 isError := None |}.
Proof.
  intros Hx Hok Hbody. unfold trace, outcome.
  change (get_pr H owner repo n token) with (handle H (call_get_pr owner repo n token)).
  rewrite single_call_run by discriminate. cbn zeta.
  cbn [first_call request_of after_first_call fst snd first_state exchanges].
  rewrite Hx. cbn. rewrite Hok, Hbody. split; reflexivity.
Qed.

(** ** [analyze_and_comment_pr] *)






(** ** [post_comment_on_pr] *)

(** [post_comment_on_pr] returns a result without [isError] exactly when
    the response is [ok] and its body is an object with a [user] that is
    not [null]. *)
Theorem post_comment_on_pr_succeeds_iff owner repo n text token (w : world H) :
  (exists result,
     outcome H (post_comment_on_pr H owner repo n text token) w = Normal result
     /\ isError result = None)
  <-> exists r comment user,
        (fetch H (comment_request owner repo n text token) w).1 = resolves r
        /\ ok r = true
        /\ json_body r = Normal (JObject comment)
        /\ assoc "user" comment = Some user
        /\ user <> JNull.
Proof.
  unfold outcome.
  change (post_comment_on_pr H owner repo n text token)
    with (handle H (call_post_comment_on_pr owner repo n text token)).
  rewrite single_call_run by discriminate. cbn zeta.
  cbn [first_call request_of after_first_call fst].
  set (x := fetch H (comment_request owner repo n text token) w).
  split.
  - intros (result & [= <-] & Hflag).
    destruct x.1 as [r|e]; [|discriminate Hflag]. cbn [settle] in Hflag.
    destruct (ok r) eqn:Hok; [|discriminate Hflag].
    destruct (json_body r) as [[| | | | |comment]|e] eqn:Hbody; try discriminate Hflag.
    unfold comment_summary in Hflag. cbn [and_then get] in Hflag.
    destruct (assoc "user" comment) as [user|] eqn:Huser; [|discriminate Hflag].
    exists r, comment, user. repeat split; try assumption.
    intros ->. discriminate Hflag.
  - intros (r & comment & user & -> & Hok & Hbody & Huser & Hnull).
    cbn [settle]. rewrite Hok, Hbody. unfold comment_summary.
    cbn [and_then get]. rewrite Huser.
    destruct user; try (now destruct Hnull); cbn; eauto.
Qed.

(** When the created comment comes back without a [user],
    [post_comment_on_pr] has made its [POST], answered [ok], and still
    returns an error-flagged result: the TypeError of [comment.user.login]. *)
Theorem comment_without_user_is_reported_as_error owner repo n text token
    (w : world H) (r : response) (comment : list (string * json)) :
  (fetch H (comment_request owner repo n text token) w).1 = resolves r ->
  ok r = true ->
  json_body r = Normal (JObject comment) ->
  assoc "user" comment = None ->
  trace H (post_comment_on_pr H owner repo n text token) w
    = [(comment_request owner repo n text token, resolves r)]
  /\ outcome H (post_comment_on_pr H owner repo n text token) w
     = Normal
         {| content :=
              [{| type := "text";
                  text := "Error: Cannot read properties of undefined (reading 'login')" |}];
            isError := Some true |}.
Proof.
  intros Hx Hok Hbody Huser. unfold outcome, trace.
  change (post_comment_on_pr H owner repo n text token)
    with (handle H (call_post_comment_on_pr owner repo n text token)).
  rewrite single_call_run by discriminate. cbn zeta.
  cbn [first_call request_of after_first_call fst snd first_state exchanges].
  rewrite Hx. cbn [settle]. rewrite Hok, Hbody. unfold comment_summary.
  cbn [and_then get]. rewrite Huser. split; reflexivity.
Qed.

(** ** The requests of the tools *)

Definition token_argument (c : tool_call) : option string :=
  match c with
  | call_get_prs_of_repo _ _ token | call_get_pr _ _ _ token
  | call_analyze_and_comment_pr _ _ _ token
  | call_post_comment_on_pr _ _ _ _ token => token
  end.

(** Every request of a run is that of a client call with the token of the
    tool call. *)
Lemma requests_of_the_run (c : tool_call) (w : world H) (rq : request) (x : fetch_result) :
  In (rq, x) (trace H (handle H c) w) ->
  exists call, rq = request_of call /\ token_of call = token_argument c.
Proof.
  unfold trace.
  destruct (not_analyze_cases c) as [Hc|(owner & repo & n & token & ->)].
  - rewrite (single_call_run c w Hc). cbn [snd first_state exchanges].
    intros [[= <- _]|[]]. exists (first_call c). split; [reflexivity|].
    destruct c; reflexivity.
  - cbn [handle]. rewrite analyze_run. cbn zeta.
    destruct (settle _ _) as [pr|e].
    + destruct (prepare H _ pr) as [[report fields]|e]; cbn [snd first_state exchanges].
      * intros [[= <- _]|[[= <- _]|[]]];
          [exists (get_pull owner repo n token)
          |exists (post_comment owner repo n report token)]; split; reflexivity.
      * intros [[= <- _]|[]]. exists (get_pull owner repo n token). split; reflexivity.
    + cbn [snd first_state exchanges].
      intros [[= <- _]|[]]. exists (get_pull owner repo n token). split; reflexivity.
Qed.

(** Every request a tool makes, the [POST] of [analyze_and_comment_pr]
    included, has the fixed [Accept] and [User-Agent] headers and the
    [Authorization] header of the token passed to the tool (none for no
    token or the empty string); it has the JSON [Content-Type] exactly when
    it is a [POST], and no body exactly when it is a [GET]. *)
Theorem every_request_carries_the_headers (c : tool_call) (w : world H)
    (rq : request) (x : fetch_result) :
  In (rq, x) (trace H (handle H c) w) ->
  headers rq !! "Accept" = Some "application/vnd.github.v3+json"
  /\ headers rq !! "User-Agent" = Some "GitHub-API-Client"
  /\ headers rq !! "Authorization" =
     match token_argument c with
     | Some t => if is_empty t then None else Some ("token " +:+ t)
     | None => None
     end
  /\ (headers rq !! "Content-Type" = Some "application/json" <-> method rq = "POST")
  /\ (body rq = None <-> method rq = "GET").
Proof.
  intros Hin.
  destruct (requests_of_the_run c w rq x Hin) as (call & -> & Htoken).
  destruct (request_headers call) as (Haccept & Hagent & Hauth).
  rewrite <- Htoken. repeat split; try assumption.
  - destruct call; cbn [request_of headers method list_request pull_request comment_request];
      rewrite authorize_other by discriminate; intros Hct;
      [discriminate Hct | discriminate Hct | reflexivity].
  - destruct call; cbn [request_of headers method list_request pull_request comment_request];
      rewrite authorize_other by discriminate; intros Hm;
      [discriminate Hm | discriminate Hm | reflexivity].
  - destruct call; cbn; intros Hb; [reflexivity | reflexivity | discriminate Hb].
  - destruct call; cbn; intros Hm; [reflexivity | reflexivity | discriminate Hm].
Qed.

(** The method and the URL of each call of a run, in order. *)
Definition calls (c : tool_call) (w : world H) : list (string * string) :=
  map (fun x => (method x.1, url x.1)) (trace H (handle H c) w).

(** The calls of each tool, whatever the upstream answers: one [GET] for
    [get_prs_of_repo] and [get_pr], one [POST] for [post_comment_on_pr];
    for [analyze_and_comment_pr] the [GET] of the pull request, followed or
    not by one [POST] on the comments of the same pull request. No call is
    repeated. *)
Theorem calls_of_each_tool (c : tool_call) (w : world H) :
  match c with
  | call_get_prs_of_repo owner repo _ =>
      calls c w = [("GET", GITHUB_URL +:+ "/repos/" +:+ owner +:+ "/" +:+ repo +:+ "/pulls")]
  | call_get_pr owner repo n _ =>
      calls c w = [("GET", GITHUB_URL +:+ "/repos/" +:+ owner +:+ "/" +:+ repo +:+ "/pulls/"
                       +:+ Number_toString n)]
  | call_post_comment_on_pr owner repo n _ _ =>
      calls c w = [("POST", GITHUB_URL +:+ "/repos/" +:+ owner +:+ "/" +:+ repo +:+ "/issues/"
                        +:+ Number_toString n +:+ "/comments")]
  | call_analyze_and_comment_pr owner repo n _ =>
      calls c w = [("GET", GITHUB_URL +:+ "/repos/" +:+ owner +:+ "/" +:+ repo +:+ "/pulls/"
                       +:+ Number_toString n)]
      \/ calls c w = [("GET", GITHUB_URL +:+ "/repos/" +:+ owner +:+ "/" +:+ repo +:+ "/pulls/"
                          +:+ Number_toString n);
                  ("POST", GITHUB_URL +:+ "/repos/" +:+ owner +:+ "/" +:+ repo
                           +:+ "/issues/" +:+ Number_toString n +:+ "/comments")]
  end.
Proof.
  unfold calls, trace.
  destruct (not_analyze_cases c) as [Hc|(owner & repo & n & token & ->)].
  - rewrite (single_call_run c w Hc). cbn [snd first_state exchanges].
    destruct c; try reflexivity. now destruct (Hc owner repo pull_number token).
  - cbn [handle]. rewrite analyze_run. cbn zeta.
    destruct (settle _ _) as [pr|e]; [|left; reflexivity].
    destruct (prepare H _ pr) as [[report fields]|e]; [right|left]; reflexivity.
Qed.

(** ** When a tool succeeds *)

Definition succeeds (c : tool_call) (w : world H) : Prop :=
  exists result, outcome H (handle H c) w = Normal result /\ isError result = None.

(** [get_prs_of_repo] and [get_pr] return a result without [isError]
    exactly when the response is [ok] and its body is JSON. *)
Theorem read_tools_succeed_iff owner repo n token (w : world H) :
  (succeeds (call_get_prs_of_repo owner repo token) w
   <-> exists r prs,
         (fetch H (list_request owner repo token) w).1 = resolves r
         /\ ok r = true /\ json_body r = Normal prs)
  /\ (succeeds (call_get_pr owner repo n token) w
      <-> exists r pr,
            (fetch H (pull_request owner repo n token) w).1 = resolves r
            /\ ok r = true /\ json_body r = Normal pr).
Proof.
  unfold succeeds, outcome.
  split; rewrite single_call_run by discriminate; cbn zeta;
    cbn [first_call request_of after_first_call fst].
  - set (x := (fetch H (list_request owner repo token) w).1). split.
    + intros (result & [= <-] & Hflag).
      destruct x as [r|e]; [|discriminate Hflag]. cbn [settle] in Hflag.
      destruct (ok r) eqn:Hok; [|discriminate Hflag].
      destruct (json_body r) as [j|e] eqn:Hbody; [|discriminate Hflag]. eauto.
    + intros (r & j & -> & Hok & Hbody). cbn [settle]. rewrite Hok, Hbody.
      cbn. eauto.
  - set (x := (fetch H (pull_request owner repo n token) w).1). split.
    + intros (result & [= <-] & Hflag).
      destruct x as [r|e]; [|discriminate Hflag]. cbn [settle] in Hflag.
      destruct (ok r) eqn:Hok; [|discriminate Hflag].
      destruct (json_body r) as [j|e] eqn:Hbody; [|discriminate Hflag]. eauto.
    + intros (r & j & -> & Hok & Hbody). cbn [settle]. rewrite Hok, Hbody.
      cbn. eauto.
Qed.


End Tools.

(** ** The age of a pull request *)



Lemma clamp_is_a_number (m e : Z) : clamp m e <> NaN.
Proof.
  unfold clamp. destruct (m =? 0); [discriminate|].
  destruct (overflows _ _); [discriminate|].
  destruct (underflows _ _); discriminate.
Qed.

(** The age is [NaN] exactly when one of the two dates is invalid (a
    [created_at] that is missing or does not parse). *)
Theorem age_is_NaN_iff_a_date_is_invalid (now created : Date) :
  daysOld now created = NaN <-> now = None \/ created = None.
Proof.
  split.
  - destruct now as [a|], created as [b|]; auto. intros Hnan. exfalso.
    unfold daysOld, getTime, Int, sub in Hnan.
    destruct (clamp _ _) as [|s|m e] eqn:Hclamp.
    + now apply clamp_is_a_number in Hclamp.
    + discriminate Hnan.
    + unfold Math_floor_quot in Hnan. cbn [Z.eqb Z.mul Pos.mul] in Hnan.
      change (1000 * 60 * 60 * 24 =? 0) with false in Hnan. cbv iota in Hnan.
      now apply clamp_is_a_number in Hnan.
  - intros [-> | ->]; [reflexivity|]. now destruct now.
Qed.


(** A pull request created an hour from now is minus one day old. *)
Example age_of_a_pull_request_from_the_future :
  daysOld (Some new_year) (Some (new_year + 3600000)) = Int (-1).
Proof. reflexivity. Qed.

(** ** The theorems at sample inputs *)

(** A host without network, one whose upstream answers with a page that is
    not JSON, one that answers 304, and one whose created comment has no
    [user]. *)
Definition offline : host :=
  stub (fun _ => rejects (Error "fetch failed")) new_year.

Definition html_page : response :=
  {| status := 200; statusText := "OK";
     json_body := Throw (Error "Unexpected end of JSON input") |}.

Definition misconfigured : host := stub (fun _ => resolves html_page) new_year.

Definition not_modified : response :=
  {| status := 304; statusText := "Not Modified";
     json_body := Throw (Error "Unexpected end of JSON input") |}.

Definition cached : host := stub (fun _ => resolves not_modified) new_year.

Definition anonymous_comment : response :=
  {| status := 201; statusText := "Created";
     json_body := Normal (JObject [("id", JNumber (Int 8))]) |}.

Definition anonymous : host := stub (fun _ => resolves anonymous_comment) new_year.

Lemma rejected_call_is_reported_witness :
  outcome offline
    (handle offline (call_get_prs_of_repo "octocat" "hello-world" None)) tt
  = Normal {| content := [{| type := "text"; text := "Error: fetch failed" |}];
              isError := Some true |}
  /\ trace offline
       (handle offline (call_get_prs_of_repo "octocat" "hello-world" None)) tt
     = [(list_request "octocat" "hello-world" None, rejects (Error "fetch failed"))].
Proof.
  apply (rejected_call_is_reported offline
           (call_get_prs_of_repo "octocat" "hello-world" None) tt (Error "fetch failed")).
  reflexivity.
Defined.

Lemma unparsable_body_is_reported_witness :
  outcome misconfigured
    (handle misconfigured
       (call_analyze_and_comment_pr "octocat" "hello-world" (Int 42) None)) tt
  = Normal {| content := [{| type := "text";
                             text := "Error: Unexpected end of JSON input" |}];
              isError := Some true |}
  /\ trace misconfigured
       (handle misconfigured
          (call_analyze_and_comment_pr "octocat" "hello-world" (Int 42) None)) tt
     = [(pull_request "octocat" "hello-world" (Int 42) None, resolves html_page)].
Proof.
  apply (unparsable_body_is_reported misconfigured
           (call_analyze_and_comment_pr "octocat" "hello-world" (Int 42) None) tt
           html_page (Error "Unexpected end of JSON input")); reflexivity.
Defined.

Lemma status_outside_2xx_is_reported_witness :
  (exists prefix,
     (prefix = "GitHub API error: " \/ prefix = "Failed to post comment: ")
     /\ outcome cached (handle cached (call_get_pr "octocat" "hello-world" (Int 42) None)) tt
        = Normal
            {| content :=
                 [{| type := "text";
                     text := "Error: " +:+ prefix +:+ Number_toString (Int 304)
                             +:+ " " +:+ "Not Modified" |}];
               isError := Some true |})
  /\ last (trace cached (handle cached (call_get_pr "octocat" "hello-world" (Int 42) None)) tt)
     = Some (pull_request "octocat" "hello-world" (Int 42) None, resolves not_modified).
Proof.
  apply (status_outside_2xx_is_reported cached
           (call_get_pr "octocat" "hello-world" (Int 42) None) tt
           (pull_request "octocat" "hello-world" (Int 42) None) not_modified).
  - left. reflexivity.
  - right. vm_compute. reflexivity.
Defined.

Lemma get_pr_returns_the_pull_request_witness :
  map (fun x => (method x.1, url x.1))
    (trace working (get_pr working "octocat" "hello-world" (Int 42) None) tt)
  = [("GET", "https://api.github.com/repos/octocat/hello-world/pulls/42")]
  /\ outcome working (get_pr working "octocat" "hello-world" (Int 42) None) tt
     = Normal (text_result (JSON_stringify sample_pr 2)).
Proof.
  apply (get_pr_returns_the_pull_request working "octocat" "hello-world" (Int 42) None tt
           {| status := 200; statusText := "OK"; json_body := Normal sample_pr |}
           sample_pr); reflexivity.
Defined.

Definition sample_report : string :=
  analysisReport (Some (JNumber (Int 42))) (Some (JString "Fix the build"))
    (Some (JString "open")) (Some (JString "bob"))
    "1704067200000" "1704067200000"
    (Some (JString "https://github.com/octocat/hello-world/pull/42"))
    "OPEN" (Int 3).


Lemma comment_without_user_is_reported_as_error_witness :
  trace anonymous
    (post_comment_on_pr anonymous "octocat" "hello-world" (Int 42) "hello" None) tt
  = [(comment_request "octocat" "hello-world" (Int 42) "hello" None,
      resolves anonymous_comment)]
  /\ outcome anonymous
       (post_comment_on_pr anonymous "octocat" "hello-world" (Int 42) "hello" None) tt
     = Normal
         {| content :=
              [{| type := "text";
                  text := "Error: Cannot read properties of undefined (reading 'login')" |}];
            isError := Some true |}.
Proof.
  apply (comment_without_user_is_reported_as_error anonymous
           "octocat" "hello-world" (Int 42) "hello" None tt
           anonymous_comment [("id", JNumber (Int 8))]); reflexivity.
Defined.

Lemma every_request_carries_the_headers_witness :
  headers (comment_request "octocat" "hello-world" (Int 42) sample_report (Some "s3cret"))
    !! "Authorization" = Some "token s3cret".
Proof.
  apply (every_request_carries_the_headers working
           (call_analyze_and_comment_pr "octocat" "hello-world" (Int 42) (Some "s3cret")) tt
           (comment_request "octocat" "hello-world" (Int 42) sample_report (Some "s3cret"))
           (with_body 201 "Created" sample_comment)).
  right. left. reflexivity.
Defined.

End ServerMore.
